(** * Mark7App: the authenticated API client ([ApiService])

    A shallow embedding of the HTTP client of the attendance application
    (class [ApiService], its axios instance with the two interceptors, and
    the token kept in [AsyncStorage]), together with the sign-up form check
    of the login screen ([validateForm]).

    Promises are modelled by a small monad [Async]: a computation reads the
    network (one answer per outgoing request), threads the local state
    (the key-value store and the [currentUser] field), settles as fulfilled
    or rejected, and records the requests it handed to the transport.
    [console.log] calls and UI effects (alerts, navigation) are not
    modelled; [AsyncStorage] calls are taken to succeed. *)

From Stdlib Require Import ZArith Ascii String.
From stdpp Require Import base option strings list gmap.

Open Scope Z_scope.
Open Scope string_scope.
Open Scope list_scope.

(** ** Data model *)

(** Values of type [any]: request bodies and the payload fields of a
    response.  TypeScript interfaces are erased at run time, so a request
    body is whatever JSON value the caller hands over.  Numbers are kept
    abstract as integers; the client never computes on them. *)
#[warnings="-register-all"]
Inductive JsValue : Type :=
| JsUndefined
| JsNull
| JsBool (b : bool)
| JsNumber (n : Z)
| JsString (s : string)
| JsArray (items : list JsValue)
| JsObject (fields : list (string * JsValue)).

(** JavaScript truthiness of a string, and of a possibly missing one. *)
Definition truthy (s : string) : bool :=
  match s with
  | EmptyString => false
  | String _ _ => true
  end.

Definition truthy_opt (o : option string) : bool :=
  match o with
  | Some s => truthy s
  | None => false
  end.

(** [interface ApiResponse]: the response envelope.  [token] and [message]
    are optional here because the code itself guards against their absence
    ([response.data.token] is tested for truthiness, [data?.message] is
    followed by [||]). *)
Module ApiResponse.
Record t : Type := mk {
  status : string;
  token : option string;
  message : option string;
  timetable : option JsValue;
  data : JsValue
}.
End ApiResponse.

(** [interface UserData], the type of the [currentUser] field. *)
Module UserData.
Record t : Type := mk {
  id : string;
  name : string;
  role : string;
  email : string;
  year : option string;
  branch : option string;
  department : option string
}.
End UserData.

Inductive Method : Type := GET | POST | PUT.

(** The request configuration handed to the transport. *)
Module AxiosRequestConfig.
Record t : Type := mk {
  method : Method;
  baseURL : string;
  url : string;
  timeout : Z;
  headers : gmap string string;
  data : option JsValue
}.
End AxiosRequestConfig.

(** An HTTP response: status code and parsed body. *)
Module AxiosResponse.
Record t (D : Type) : Type := mk {
  status : Z;
  data : D
}.
Arguments mk {D} _ _.
Arguments status {D} _.
Arguments data {D} _.
End AxiosResponse.

(** A thrown value.  [isAxiosError] is the flag [axios.isAxiosError] tests;
    [response] is present when the server answered with a status outside
    2xx (its body may be missing or carry no message); [code] is axios's
    error code, ["ECONNABORTED"] for an expired deadline. *)
Module JsError.
Record t : Type := mk {
  isAxiosError : bool;
  response : option (AxiosResponse.t (option ApiResponse.t));
  code : option string;
  message : string
}.
End JsError.

(** [new Error(msg)]: a plain error, not an axios error. *)
Definition Error (msg : string) : JsError.t :=
  {| JsError.isAxiosError := false;
     JsError.response := None;
     JsError.code := None;
     JsError.message := msg |}.

(** A settled promise. *)
Inductive Settled (A : Type) : Type :=
| Fulfilled (value : A)
| Rejected (reason : JsError.t).
Arguments Fulfilled {A} _.
Arguments Rejected {A} _.

(** The network as the client sees it: the transport's answer to a request.
    A 2xx answer fulfils; anything else (no answer, expired deadline,
    status outside 2xx) rejects with an axios error. *)
Definition Transport : Type :=
  AxiosRequestConfig.t → Settled (AxiosResponse.t ApiResponse.t).

(** Local state: the persistent key-value store and the private field
    [currentUser] of the service object. *)
Record World : Type := mkWorld {
  asyncStorage : gmap string string;
  currentUser : option UserData.t
}.

(** ** The [Async] monad *)

Definition Async (A : Type) : Type :=
  Transport → World → Settled A * World * list AxiosRequestConfig.t.

Definition settled {A} (r : Settled A * World * list AxiosRequestConfig.t) :
  Settled A := r.1.1.
Definition world_after {A} (r : Settled A * World * list AxiosRequestConfig.t) :
  World := r.1.2.
Definition sent {A} (r : Settled A * World * list AxiosRequestConfig.t) :
  list AxiosRequestConfig.t := r.2.

#[export] Instance async_ret : MRet Async :=
  λ A a, λ _ w, (Fulfilled a, w, []).

#[export] Instance async_bind : MBind Async :=
  λ A B f m, λ net w,
    match m net w with
    | (Fulfilled a, w1, out1) =>
        let '(r, w2, out2) := f a net w1 in (r, w2, out1 ++ out2)
    | (Rejected e, w1, out1) => (Rejected e, w1, out1)
    end.

(** [throw e] / [Promise.reject(e)]. *)
Definition throw {A} (e : JsError.t) : Async A :=
  λ _ w, (Rejected e, w, []).

(** [try { body } catch (error) { handler }]: state changes and requests
    made before the throw stay. *)
Definition try_catch {A} (body : Async A) (handler : JsError.t → Async A) :
  Async A :=
  λ net w,
    match body net w with
    | (Fulfilled a, w1, out1) => (Fulfilled a, w1, out1)
    | (Rejected e, w1, out1) =>
        let '(r, w2, out2) := handler e net w1 in (r, w2, out1 ++ out2)
    end.

(** [AsyncStorage.getItem], [setItem], [removeItem]. *)
Definition AsyncStorage_getItem (key : string) : Async (option string) :=
  λ _ w, (Fulfilled (asyncStorage w !! key), w, []).

Definition AsyncStorage_setItem (key value : string) : Async unit :=
  λ _ w, (Fulfilled tt,
          {| asyncStorage := <[key := value]> (asyncStorage w);
             currentUser := currentUser w |}, []).

Definition AsyncStorage_removeItem (key : string) : Async unit :=
  λ _ w, (Fulfilled tt,
          {| asyncStorage := delete key (asyncStorage w);
             currentUser := currentUser w |}, []).

(** [this.currentUser = u]. *)
Definition set_currentUser (u : option UserData.t) : Async unit :=
  λ _ w, (Fulfilled tt,
          {| asyncStorage := asyncStorage w; currentUser := u |}, []).

(** The transport itself: the request leaves the client here. *)
Definition dispatchRequest (config : AxiosRequestConfig.t) :
  Async (AxiosResponse.t ApiResponse.t) :=
  λ net w, (net config, w, [config]).

(** ** The service: configuration, interceptors, helpers *)

Definition BASE_URL : string := "https://mark77.onrender.com/".

(** Defaults of the instance made by [axios.create]. *)
Definition default_timeout : Z := 20000.
Definition default_headers : gmap string string :=
  {[ "Content-Type" := "application/json" ]}.

(** The configuration of one call: the instance defaults, overridden by
    the per-call timeout and headers when the call gives them.  Headers
    are those the source sets; what axios adds of its own is left out. *)
Definition mergeConfig (m : Method) (path : string) (body : option JsValue)
    (timeout : option Z) (hdrs : gmap string string) : AxiosRequestConfig.t :=
  {| AxiosRequestConfig.method := m;
     AxiosRequestConfig.baseURL := BASE_URL;
     AxiosRequestConfig.url := path;
     AxiosRequestConfig.timeout := default default_timeout timeout;
     AxiosRequestConfig.headers := hdrs ∪ default_headers;
     AxiosRequestConfig.data := body |}.

Definition getToken : Async (option string) := AsyncStorage_getItem "token".

Definition setToken (token : string) : Async unit :=
  AsyncStorage_setItem "token" token.

(** [a || b] on strings, [a] possibly missing. *)
Definition or_else (a : option string) (b : string) : string :=
  match a with
  | Some s => if truthy s then s else b
  | None => b
  end.

(** [handleApiError]:
    [error.response?.data?.message || error.message || 'An unexpected error occurred']. *)
Definition handleApiError (error : JsError.t) : JsError.t :=
  let serverMessage :=
    r ← JsError.response error; d ← AxiosResponse.data r; ApiResponse.message d in
  Error (or_else serverMessage
           (or_else (Some (JsError.message error)) "An unexpected error occurred")).

(** [config.headers['Authorization'] = `Bearer ${token}`]. *)
Definition withAuthorization (token : string) (config : AxiosRequestConfig.t) :
  AxiosRequestConfig.t :=
  {| AxiosRequestConfig.method := AxiosRequestConfig.method config;
     AxiosRequestConfig.baseURL := AxiosRequestConfig.baseURL config;
     AxiosRequestConfig.url := AxiosRequestConfig.url config;
     AxiosRequestConfig.timeout := AxiosRequestConfig.timeout config;
     AxiosRequestConfig.headers :=
       <[ "Authorization" := "Bearer " +:+ token ]> (AxiosRequestConfig.headers config);
     AxiosRequestConfig.data := AxiosRequestConfig.data config |}.

(** The request interceptor: read the token, attach it when truthy. *)
Definition requestInterceptor (config : AxiosRequestConfig.t) :
  Async AxiosRequestConfig.t :=
  token ← getToken;
  match token with
  | Some t => if truthy t then mret (withAuthorization t config) else mret config
  | None => mret config
  end.

(** The response interceptor: responses pass, every rejection is replaced
    by the plain error [handleApiError] builds. *)
Definition responseInterceptor {A} (error : JsError.t) : Async A :=
  throw (handleApiError error).

(** One call through the instance: request interceptor, transport,
    response interceptor (which also sees a rejection of the steps before
    it). *)
Definition request (config : AxiosRequestConfig.t) :
  Async (AxiosResponse.t ApiResponse.t) :=
  try_catch (config' ← requestInterceptor config; dispatchRequest config')
            responseInterceptor.

Definition api_get (path : string) : Async (AxiosResponse.t ApiResponse.t) :=
  request (mergeConfig GET path None None ∅).

Definition api_post (path : string) (body : option JsValue)
    (timeout : option Z) (hdrs : gmap string string) :
  Async (AxiosResponse.t ApiResponse.t) :=
  request (mergeConfig POST path body timeout hdrs).

Definition api_put (path : string) (body : JsValue) :
  Async (AxiosResponse.t ApiResponse.t) :=
  request (mergeConfig PUT path (Some body) None ∅).

(** The three fixed messages of [login]. *)
Definition INVALID_LOGIN : string := "Invalid login response".
Definition CONNECTIVITY_MESSAGE : string :=
  "Please check your internet connection and try again".
Definition TIMEOUT_MESSAGE : string := "Request timed out. Please try again".

(** ** The operations of [ApiService] *)

Definition login (username password : string) : Async ApiResponse.t :=
  try_catch
    (response ← api_post "/shared/login"
        (Some (JsObject [("username", JsString username);
                         ("password", JsString password)]))
        (Some 15000)
        {[ "Content-Type" := "application/json"; "Accept" := "application/json" ]};
     let body := AxiosResponse.data response in
     match ApiResponse.token body with
     | Some t =>
         if bool_decide (ApiResponse.status body = "success") && truthy t
         then setToken t;; mret body
         else throw (Error INVALID_LOGIN)
     | None => throw (Error INVALID_LOGIN)
     end)
    (λ error,
       if JsError.isAxiosError error
          && bool_decide (JsError.response error = None)
       then throw (Error CONNECTIVITY_MESSAGE)
       else if JsError.isAxiosError error
               && bool_decide (JsError.code error = Some "ECONNABORTED")
       then throw (Error TIMEOUT_MESSAGE)
       else throw (handleApiError error)).

Definition register (userData : JsValue) : Async ApiResponse.t :=
  try_catch
    (response ← api_post "/shared/register" (Some userData) None ∅;
     mret (AxiosResponse.data response))
    (λ error, throw (handleApiError error)).

Definition logout : Async unit :=
  AsyncStorage_removeItem "token";; set_currentUser None.

(** All remaining operations await one call and return [response.data],
    the body of the HTTP response. *)
Definition fetch (path : string) : Async ApiResponse.t :=
  response ← api_get path; mret (AxiosResponse.data response).

Definition post (path : string) (body : JsValue) : Async ApiResponse.t :=
  response ← api_post path (Some body) None ∅; mret (AxiosResponse.data response).

Definition put (path : string) (body : JsValue) : Async ApiResponse.t :=
  response ← api_put path body; mret (AxiosResponse.data response).

(* Student APIs *)
Definition getStudentProfile : Async ApiResponse.t := fetch "/student/profile".
Definition updateStudentProfile (data : JsValue) : Async ApiResponse.t :=
  put "/student/profile" data.
Definition markAttendance (data : JsValue) : Async ApiResponse.t :=
  post "/student/mark_attendance" data.
Definition getTimetableEntries : Async ApiResponse.t := fetch "/faculty/view_timetable".
Definition getTimetable : Async ApiResponse.t := fetch "/student/view_timetable".
Definition getAttendanceHistory : Async ApiResponse.t :=
  fetch "/student/attendance_history".
Definition getAttendanceAnalytics : Async ApiResponse.t :=
  fetch "/student/attendance_analytics".
Definition getAttendanceReport : Async ApiResponse.t :=
  fetch "/student/attendance_report".
Definition requestAttendanceCorrection (data : JsValue) : Async ApiResponse.t :=
  post "/student/request_correction" data.

(* Faculty APIs *)
Definition getFacultyProfile : Async ApiResponse.t := fetch "/faculty/profile".
Definition updateFacultyProfile (data : JsValue) : Async ApiResponse.t :=
  put "/faculty/profile" data.
Definition enterTimetable (data : JsValue) : Async ApiResponse.t :=
  post "/faculty/enter_timetable" data.
Definition getAttendanceStatistics : Async ApiResponse.t :=
  fetch "/faculty/attendance_statistics".
Definition getDetainedStudents : Async ApiResponse.t :=
  fetch "/faculty/detained_students".
Definition exportAttendance : Async ApiResponse.t := fetch "/faculty/export_attendance".
Definition getUnreadNotifications : Async ApiResponse.t :=
  fetch "/faculty/notifications".
Definition getOverallAnalytics : Async ApiResponse.t :=
  fetch "/faculty/overall_analytics".
Definition getPendingRequests : Async ApiResponse.t :=
  fetch "/faculty/pending_requests".

Definition checkout : Async ApiResponse.t :=
  try_catch
    (response ← api_post "/student/checkout" None None ∅;
     mret (AxiosResponse.data response))
    (λ error, throw (handleApiError error)).

Definition getStudentAnalytics : Async ApiResponse.t :=
  try_catch
    (response ← api_get "/faculty/student_analytics";
     mret (AxiosResponse.data response))
    (λ error, throw (handleApiError error)).

Definition getStudentsByAttendance : Async ApiResponse.t :=
  fetch "/faculty/students_by_attendance".
Definition updateAttendance (data : JsValue) : Async ApiResponse.t :=
  put "/faculty/update_attendance" data.

(** The operations that go to the network, as one type, so that a
    statement can range over all of them. *)
Inductive Operation : Type :=
| Login (username password : string)
| Register (userData : JsValue)
| GetStudentProfile
| UpdateStudentProfile (data : JsValue)
| MarkAttendance (data : JsValue)
| GetTimetableEntries
| GetTimetable
| GetAttendanceHistory
| GetAttendanceAnalytics
| GetAttendanceReport
| RequestAttendanceCorrection (data : JsValue)
| GetFacultyProfile
| UpdateFacultyProfile (data : JsValue)
| EnterTimetable (data : JsValue)
| GetAttendanceStatistics
| GetDetainedStudents
| ExportAttendance
| GetUnreadNotifications
| GetOverallAnalytics
| GetPendingRequests
| Checkout
| GetStudentAnalytics
| GetStudentsByAttendance
| UpdateAttendance (data : JsValue).

Definition call (op : Operation) : Async ApiResponse.t :=
  match op with
  | Login username password => login username password
  | Register userData => register userData
  | GetStudentProfile => getStudentProfile
  | UpdateStudentProfile data => updateStudentProfile data
  | MarkAttendance data => markAttendance data
  | GetTimetableEntries => getTimetableEntries
  | GetTimetable => getTimetable
  | GetAttendanceHistory => getAttendanceHistory
  | GetAttendanceAnalytics => getAttendanceAnalytics
  | GetAttendanceReport => getAttendanceReport
  | RequestAttendanceCorrection data => requestAttendanceCorrection data
  | GetFacultyProfile => getFacultyProfile
  | UpdateFacultyProfile data => updateFacultyProfile data
  | EnterTimetable data => enterTimetable data
  | GetAttendanceStatistics => getAttendanceStatistics
  | GetDetainedStudents => getDetainedStudents
  | ExportAttendance => exportAttendance
  | GetUnreadNotifications => getUnreadNotifications
  | GetOverallAnalytics => getOverallAnalytics
  | GetPendingRequests => getPendingRequests
  | Checkout => checkout
  | GetStudentAnalytics => getStudentAnalytics
  | GetStudentsByAttendance => getStudentsByAttendance
  | UpdateAttendance data => updateAttendance data
  end.

Definition is_login (op : Operation) : bool :=
  match op with Login _ _ => true | _ => false end.

(** The configuration each operation hands to its instance call, before
    the request interceptor runs. *)
Definition config_of (op : Operation) : AxiosRequestConfig.t :=
  match op with
  | Login username password =>
      mergeConfig POST "/shared/login"
        (Some (JsObject [("username", JsString username);
                         ("password", JsString password)]))
        (Some 15000)
        {[ "Content-Type" := "application/json"; "Accept" := "application/json" ]}
  | Register userData => mergeConfig POST "/shared/register" (Some userData) None ∅
  | GetStudentProfile => mergeConfig GET "/student/profile" None None ∅
  | UpdateStudentProfile data => mergeConfig PUT "/student/profile" (Some data) None ∅
  | MarkAttendance data =>
      mergeConfig POST "/student/mark_attendance" (Some data) None ∅
  | GetTimetableEntries => mergeConfig GET "/faculty/view_timetable" None None ∅
  | GetTimetable => mergeConfig GET "/student/view_timetable" None None ∅
  | GetAttendanceHistory => mergeConfig GET "/student/attendance_history" None None ∅
  | GetAttendanceAnalytics =>
      mergeConfig GET "/student/attendance_analytics" None None ∅
  | GetAttendanceReport => mergeConfig GET "/student/attendance_report" None None ∅
  | RequestAttendanceCorrection data =>
      mergeConfig POST "/student/request_correction" (Some data) None ∅
  | GetFacultyProfile => mergeConfig GET "/faculty/profile" None None ∅
  | UpdateFacultyProfile data => mergeConfig PUT "/faculty/profile" (Some data) None ∅
  | EnterTimetable data =>
      mergeConfig POST "/faculty/enter_timetable" (Some data) None ∅
  | GetAttendanceStatistics =>
      mergeConfig GET "/faculty/attendance_statistics" None None ∅
  | GetDetainedStudents => mergeConfig GET "/faculty/detained_students" None None ∅
  | ExportAttendance => mergeConfig GET "/faculty/export_attendance" None None ∅
  | GetUnreadNotifications => mergeConfig GET "/faculty/notifications" None None ∅
  | GetOverallAnalytics => mergeConfig GET "/faculty/overall_analytics" None None ∅
  | GetPendingRequests => mergeConfig GET "/faculty/pending_requests" None None ∅
  | Checkout => mergeConfig POST "/student/checkout" None None ∅
  | GetStudentAnalytics => mergeConfig GET "/faculty/student_analytics" None None ∅
  | GetStudentsByAttendance =>
      mergeConfig GET "/faculty/students_by_attendance" None None ∅
  | UpdateAttendance data =>
      mergeConfig PUT "/faculty/update_attendance" (Some data) None ∅
  end.

(** What the request interceptor makes of a configuration in a given
    world: this is the request on the wire. *)
Definition outgoing (w : World) (config : AxiosRequestConfig.t) :
  AxiosRequestConfig.t :=
  match asyncStorage w !! "token" with
  | Some t => if truthy t then withAuthorization t config else config
  | None => config
  end.

(** Everything a caller can do with the service object. *)
Inductive Action : Type :=
| Invoke (op : Operation)
| Logout.

Definition step (a : Action) (net : Transport) (w : World) : World :=
  match a with
  | Invoke op => world_after (call op net w)
  | Logout => world_after (logout net w)
  end.

(** The states of a run: a fresh installation holds no token (other keys
    are the callers' business) and the constructor leaves [currentUser]
    null; then any action, against any network. *)
Inductive Reachable : World → Prop :=
| Reachable_new (kv : gmap string string) :
    kv !! "token" = None → Reachable (mkWorld kv None)
| Reachable_step (a : Action) (net : Transport) (w : World) :
    Reachable w → Reachable (step a net w).

(** The request an operation puts on the wire in world [w]. *)
Definition wire (op : Operation) (w : World) : AxiosRequestConfig.t :=
  outgoing w (config_of op).

(** ** The sign-up form of the login screen ([validateForm])

    Strings are taken as ASCII text; [\s] is then tab, line feed, vertical
    tab, form feed, carriage return and space. *)

Record FormData : Type := mkFormData {
  form_id : string;
  form_name : string;
  form_role : string;
  form_email : string;
  form_password : string;
  form_year : string;
  form_branch : string;
  form_department : string;
  form_username : string
}.

(** [formData[field]]. *)
Definition form_field (field : string) (formData : FormData) : string :=
  if bool_decide (field = "id") then form_id formData
  else if bool_decide (field = "name") then form_name formData
  else if bool_decide (field = "role") then form_role formData
  else if bool_decide (field = "email") then form_email formData
  else if bool_decide (field = "password") then form_password formData
  else if bool_decide (field = "year") then form_year formData
  else if bool_decide (field = "branch") then form_branch formData
  else if bool_decide (field = "department") then form_department formData
  else if bool_decide (field = "username") then form_username formData
  else "".

Definition char_between (lo hi : nat) (c : ascii) : bool :=
  (lo <=? nat_of_ascii c)%nat && (nat_of_ascii c <=? hi)%nat.

Definition is_space (c : ascii) : bool :=
  char_between 9 13 c || bool_decide (c = " "%char).

(** The class [[^\s@]]. *)
Definition local_char (c : ascii) : bool :=
  negb (is_space c) && negb (bool_decide (c = "@"%char)).

Fixpoint some_char (p : ascii → bool) (s : string) : bool :=
  match s with
  | EmptyString => false
  | String c rest => p c || some_char p rest
  end.

(** [/[^\s@]+$/] matched at the start of [s]. *)
Fixpoint match_last (s : string) : bool :=
  match s with
  | EmptyString => false
  | String c rest =>
      local_char c && match rest with EmptyString => true | _ => match_last rest end
  end.

(** [/[^\s@]+\.[^\s@]+$/] matched at the start of [s]. *)
Fixpoint match_domain (s : string) : bool :=
  match s with
  | EmptyString => false
  | String c rest =>
      local_char c
      && (match rest with
          | String "."%char after => match_last after
          | _ => false
          end
          || match_domain rest)
  end.

(** [emailRegex.test(s)] for [/^[^\s@]+@[^\s@]+\.[^\s@]+$/]. *)
Fixpoint emailRegex_test (s : string) : bool :=
  match s with
  | EmptyString => false
  | String c rest =>
      local_char c
      && (match rest with
          | String "@"%char after => match_domain after
          | _ => false
          end
          || emailRegex_test rest)
  end.

Definition validatePassword (password : string) : bool :=
  if (String.length password <? 8)%nat then false
  else if negb (some_char (char_between 65 90) password) then false
  else if negb (some_char (char_between 48 57) password) then false
  else if negb (some_char (λ c, bool_decide (c ∈ list_ascii_of_string "!@#$%^&*"))
                  password) then false
  else true.

(** The loop over [requiredFields]: stop with [false] at the first empty
    field. *)
Fixpoint all_filled (requiredFields : list string) (formData : FormData) : bool :=
  match requiredFields with
  | [] => true
  | field :: more =>
      if negb (truthy (form_field field formData)) then false
      else all_filled more formData
  end.

Definition validateForm (isLogin : bool) (formData : FormData) : bool :=
  if isLogin then
    if negb (truthy (form_username formData))
       || negb (truthy (form_password formData))
    then false else true
  else
    let requiredFields :=
      ["id"; "name"; "email"; "password"]
      ++ (if bool_decide (form_role formData = "student") then ["year"; "branch"]
          else if bool_decide (form_role formData = "faculty") then ["department"]
          else []) in
    if negb (all_filled requiredFields formData) then false
    else if negb (emailRegex_test (form_email formData)) then false
    else if negb (validatePassword (form_password formData)) then false
    else true.

(** ** The specification's reading of a successful answer

    Following the specification's words: the result of an operation is
    the field its contract designates, [timetable] for the student
    timetable and [data] otherwise.  [envelope_value] is the whole
    envelope as the JavaScript object the caller would see, so that the
    two can be compared. *)
Definition spec_designated_field (op : Operation) (env : ApiResponse.t) : JsValue :=
  match op with
  | GetTimetable => default JsUndefined (ApiResponse.timetable env)
  | _ => ApiResponse.data env
  end.

Definition optional_field {A} (key : string) (f : A → JsValue) (o : option A) :
  list (string * JsValue) :=
  match o with
  | Some a => [(key, f a)]
  | None => []
  end.

Definition envelope_value (env : ApiResponse.t) : JsValue :=
  JsObject ([("status", JsString (ApiResponse.status env))]
            ++ optional_field "token" JsString (ApiResponse.token env)
            ++ optional_field "message" JsString (ApiResponse.message env)
            ++ optional_field "timetable" id (ApiResponse.timetable env)
            ++ [("data", ApiResponse.data env)]).

(** ** Derived views of a run *)

(** The response interceptor applied to the transport's answer. *)
Definition normalized {A B} (f : A → B) (r : Settled A) : Settled B :=
  match r with
  | Fulfilled a => Fulfilled (f a)
  | Rejected e => Rejected (handleApiError e)
  end.

(** What [login] does with the answer to its request. *)
Definition login_outcome (w : World) (answer : Settled (AxiosResponse.t ApiResponse.t)) :
  Settled ApiResponse.t * World :=
  match answer with
  | Fulfilled r =>
      let body := AxiosResponse.data r in
      match ApiResponse.token body with
      | Some t =>
          if bool_decide (ApiResponse.status body = "success") && truthy t
          then (Fulfilled body,
                {| asyncStorage := <["token" := t]> (asyncStorage w);
                   currentUser := currentUser w |})
          else (Rejected (Error INVALID_LOGIN), w)
      | None => (Rejected (Error INVALID_LOGIN), w)
      end
  | Rejected e => (Rejected (handleApiError e), w)
  end.

(** A stored token is never the empty string. *)
Definition token_nonempty (w : World) : Prop :=
  ∀ t, asyncStorage w !! "token" = Some t → truthy t = true.

(** A sequence of actions, each against its own network. *)
Fixpoint run (script : list (Action * Transport)) (w : World) : World :=
  match script with
  | [] => w
  | (a, net) :: more => run more (step a net w)
  end.

(** Actions that neither log in nor log out. *)
Definition keeps_session (a : Action) : bool :=
  match a with
  | Invoke op => negb (is_login op)
  | Logout => false
  end.

(** ** Sentences of the specification, as it words them *)

(** On a successful answer the caller receives the designated field. *)
Definition returns_designated_field (op : Operation) (net : Transport) (w : World) :
  Prop :=
  ∀ r, net (wire op w) = Fulfilled r →
       ApiResponse.status (AxiosResponse.data r) = "success" →
       ∃ v, settled (call op net w) = Fulfilled v
            ∧ envelope_value v = spec_designated_field op (AxiosResponse.data r).

(** A non-success envelope makes the operation raise an error carrying
    the envelope's message. *)
Definition raises_envelope_message (op : Operation) (net : Transport) (w : World) :
  Prop :=
  ∀ r, net (wire op w) = Fulfilled r →
       ApiResponse.status (AxiosResponse.data r) ≠ "success" →
       ∃ e, settled (call op net w) = Rejected e
            ∧ ApiResponse.message (AxiosResponse.data r) = Some (JsError.message e).

(** The source's own tests: a failure with no response, and an expired
    deadline (an axios error with code ["ECONNABORTED"], which comes with
    no response). *)
Definition no_response (e : JsError.t) : Prop :=
  JsError.response e = None.

Definition timed_out (e : JsError.t) : Prop :=
  JsError.isAxiosError e = true
  ∧ JsError.code e = Some "ECONNABORTED"
  ∧ JsError.response e = None.

(** The message of a plain error made from one that has no response:
    [error.message || 'An unexpected error occurred']. *)
Definition own_message (e : JsError.t) : string :=
  or_else (Some (JsError.message e)) "An unexpected error occurred".

(** An expired deadline raises the fixed timeout message; a failure
    with no response raises the fixed connectivity message. *)
Definition raises_timeout_message (op : Operation) (net : Transport) (w : World) :
  Prop :=
  ∀ e, net (wire op w) = Rejected e → timed_out e →
       settled (call op net w) = Rejected (Error TIMEOUT_MESSAGE).

Definition raises_connectivity_message (op : Operation) (net : Transport) (w : World) :
  Prop :=
  ∀ e, net (wire op w) = Rejected e → no_response e →
       settled (call op net w) = Rejected (Error CONNECTIVITY_MESSAGE).

(** ** Sample values *)

(** A fresh installation: an empty store. *)
Definition fresh_install : World := mkWorld ∅ None.

Definition envelope (status : string) (token message : option string)
    (data : JsValue) : ApiResponse.t :=
  {| ApiResponse.status := status;
     ApiResponse.token := token;
     ApiResponse.message := message;
     ApiResponse.timetable := None;
     ApiResponse.data := data |}.

(** A network that answers every request with status 200 and [env]. *)
Definition answering (env : ApiResponse.t) : Transport :=
  λ _, Fulfilled (AxiosResponse.mk 200 env).

(** A network on which every request fails with [e]. *)
Definition failing (e : JsError.t) : Transport := λ _, Rejected e.

(** The axios error of an expired deadline, and of a lost connection. *)
Definition timeoutError (ms : string) : JsError.t :=
  {| JsError.isAxiosError := true;
     JsError.response := None;
     JsError.code := Some "ECONNABORTED";
     JsError.message := "timeout of " +:+ ms +:+ "ms exceeded" |}.

Definition networkError : JsError.t :=
  {| JsError.isAxiosError := true;
     JsError.response := None;
     JsError.code := Some "ERR_NETWORK";
     JsError.message := "Network Error" |}.

(** Envelopes a server may send. *)
Definition profile_envelope : ApiResponse.t :=
  envelope "success" None None
    (JsObject [("name", JsString "Alice"); ("role", JsString "student")]).

Definition token_envelope : ApiResponse.t :=
  envelope "success" (Some "T1") None JsUndefined.

Definition refusal_envelope : ApiResponse.t :=
  envelope "error" None (Some "You are not connected to the campus network") JsNull.

(** A world reached by a successful login: the store holds ["T1"]. *)
Definition logged_in : World :=
  step (Invoke (Login "alice" "Secret1!")) (answering token_envelope) fresh_install.

(** Request bodies and a sign-up form. *)
Definition attendance_body : JsValue :=
  JsObject [("wifi_name", JsString "Campus"); ("block_name", JsString "A")].

Definition student_without_year : JsValue :=
  JsObject [("name", JsString "Alice"); ("role", JsString "student");
            ("email", JsString "alice@example.org"); ("branch", JsString "CSE")].

Definition form_without_year : FormData :=
  {| form_id := "21CS001"; form_name := "Alice"; form_role := "student";
     form_email := "alice@example.org"; form_password := "Secret1!";
     form_year := ""; form_branch := "CSE"; form_department := "";
     form_username := "" |}.

(** * The screens that call the client *)

(** ** Handlers: client calls together with their effects on the screen

    What a handler does to the user interface is logged as a list of
    events, kept like the store: an event emitted before a throw stays.
    Buttons of an alert and animations are not part of an event. *)

Inductive UiEvent : Type :=
| Alert (title message : string)
| NavigationReset (routeName : string)
| SetIsLoading (value : bool)
| SetMarkingAttendance (value : bool)
| SetAttendanceModalVisible (value : bool)
| OnRefresh
| FetchAgain
| ResetForm
| SetData (value : JsValue)
| SetError (value : option string)
| SetLoading (value : bool)
| SetRefreshing (value : bool)
| SetStudentAnalytics (value : JsValue)
| SetTimetable (value : JsValue).

Definition Handler (A : Type) : Type :=
  Transport → World →
  Settled A * World * list AxiosRequestConfig.t * list UiEvent.

Definition outcome {A}
    (r : Settled A * World * list AxiosRequestConfig.t * list UiEvent) :
  Settled A := r.1.1.1.
Definition world_left {A}
    (r : Settled A * World * list AxiosRequestConfig.t * list UiEvent) :
  World := r.1.1.2.
Definition requests {A}
    (r : Settled A * World * list AxiosRequestConfig.t * list UiEvent) :
  list AxiosRequestConfig.t := r.1.2.
Definition events {A}
    (r : Settled A * World * list AxiosRequestConfig.t * list UiEvent) :
  list UiEvent := r.2.

#[export] Instance handler_ret : MRet Handler :=
  λ A a, λ _ w, (Fulfilled a, w, [], []).

#[export] Instance handler_bind : MBind Handler :=
  λ A B f m, λ net w,
    match m net w with
    | (Fulfilled a, w1, out1, ev1) =>
        let '(r, w2, out2, ev2) := f a net w1 in
        (r, w2, out1 ++ out2, ev1 ++ ev2)
    | (Rejected e, w1, out1, ev1) => (Rejected e, w1, out1, ev1)
    end.

(** [await] on a call of the client (or of the store). *)
Definition await {A} (m : Async A) : Handler A :=
  λ net w, let '(r, w1, out1) := m net w in (r, w1, out1, []).

Definition emit (e : UiEvent) : Handler unit :=
  λ _ w, (Fulfilled tt, w, [], [e]).

Definition raise {A} (e : JsError.t) : Handler A :=
  λ _ w, (Rejected e, w, [], []).

(** [try { body } catch (error) { handler }]. *)
Definition catching {A} (body : Handler A) (handler : JsError.t → Handler A) :
  Handler A :=
  λ net w,
    match body net w with
    | (Fulfilled a, w1, out1, ev1) => (Fulfilled a, w1, out1, ev1)
    | (Rejected e, w1, out1, ev1) =>
        let '(r, w2, out2, ev2) := handler e net w1 in
        (r, w2, out1 ++ out2, ev1 ++ ev2)
    end.

(** [try { body } finally { cleanup }]: the cleanup runs in either case;
    the result is the body's unless the cleanup itself throws. *)
Definition finally {A} (body : Handler A) (cleanup : Handler unit) : Handler A :=
  λ net w,
    let '(r, w1, out1, ev1) := body net w in
    match cleanup net w1 with
    | (Fulfilled _, w2, out2, ev2) => (r, w2, out1 ++ out2, ev1 ++ ev2)
    | (Rejected e, w2, out2, ev2) => (Rejected e, w2, out1 ++ out2, ev1 ++ ev2)
    end.

(** JavaScript truthiness of a value that came out of JSON. *)
Definition js_truthy (v : JsValue) : bool :=
  match v with
  | JsUndefined | JsNull => false
  | JsBool b => b
  | JsNumber n => negb (Z.eqb n 0)
  | JsString s => truthy s
  | JsArray _ | JsObject _ => true
  end.

(** [a || b]. *)
Definition js_or (a b : JsValue) : JsValue := if js_truthy a then a else b.

(** An own property of a parsed object: the last field of that name;
    [undefined] when there is none or the value is no object.  (The names
    read by the screens are not built-in properties of strings or arrays.) *)
Fixpoint last_field (key : string) (fields : list (string * JsValue))
    (found : JsValue) : JsValue :=
  match fields with
  | [] => found
  | (k, v) :: more =>
      last_field key more (if bool_decide (k = key) then v else found)
  end.

Definition js_prop (key : string) (v : JsValue) : JsValue :=
  match v with
  | JsObject fields => last_field key fields JsUndefined
  | _ => JsUndefined
  end.

(** [s.startsWith(prefix)] and [s.includes(needle)]. *)
Fixpoint startsWith (s prefix : string) : bool :=
  match prefix, s with
  | EmptyString, _ => true
  | String p prefix', String c s' => bool_decide (c = p) && startsWith s' prefix'
  | String _ _, EmptyString => false
  end.

Fixpoint includes (s needle : string) : bool :=
  startsWith s needle
  || match s with
     | EmptyString => false
     | String _ s' => includes s' needle
     end.

(** ** The login and sign-up screen ([LoginSignup]) *)

(** [handleChange]: [setFormData({ ...formData, [name]: value })], for the
    names of the form's fields. *)
Definition handleChange (name value : string) (formData : FormData) : FormData :=
  {| form_id := if bool_decide (name = "id") then value else form_id formData;
     form_name := if bool_decide (name = "name") then value else form_name formData;
     form_role := if bool_decide (name = "role") then value else form_role formData;
     form_email :=
       if bool_decide (name = "email") then value else form_email formData;
     form_password :=
       if bool_decide (name = "password") then value else form_password formData;
     form_year := if bool_decide (name = "year") then value else form_year formData;
     form_branch :=
       if bool_decide (name = "branch") then value else form_branch formData;
     form_department :=
       if bool_decide (name = "department") then value
       else form_department formData;
     form_username :=
       if bool_decide (name = "username") then value
       else form_username formData |}.

Definition field_names : list string :=
  ["id"; "name"; "role"; "email"; "password"; "year"; "branch"; "department";
   "username"].

(** The fields [validateForm] requires of a sign-up form. *)
Definition requiredFields (formData : FormData) : list string :=
  ["id"; "name"; "email"; "password"]
  ++ (if bool_decide (form_role formData = "student") then ["year"; "branch"]
      else if bool_decide (form_role formData = "faculty") then ["department"]
      else []).

(** The first required field that is empty. *)
Fixpoint first_missing (fields : list string) (formData : FormData) : option string :=
  match fields with
  | [] => None
  | field :: more =>
      if negb (truthy (form_field field formData)) then Some field
      else first_missing more formData
  end.

(** The alert [validateForm] shows, if any. *)
Definition validateForm_alert (isLogin : bool) (formData : FormData) :
  option UiEvent :=
  if isLogin then
    if negb (truthy (form_username formData))
       || negb (truthy (form_password formData))
    then Some (Alert "Validation Error" "Please enter both username and password.")
    else None
  else
    match first_missing (requiredFields formData) formData with
    | Some field =>
        Some (Alert "Error" ("Please fill in the " +:+ field +:+ " field."))
    | None =>
        if negb (emailRegex_test (form_email formData))
        then Some (Alert "Error" "Please enter a valid email address.")
        else if negb (validatePassword (form_password formData))
        then Some (Alert "Error"
                     "Password must be at least 8 characters long, include an uppercase letter, a number, and a special character.")
        else None
    end.

Definition navigateToAppropriateDashboard (role : string) : Handler unit :=
  if bool_decide (role = "student") then emit (NavigationReset "StudentDashboard")
  else if bool_decide (role = "faculty") then emit (NavigationReset "FacultyDashboard")
  else mret tt.

(** The body [handleSubmit] sends to [register]. *)
Definition signupPayload (formData : FormData) : JsValue :=
  JsObject
    ([("id", JsString (form_id formData));
      ("name", JsString (form_name formData));
      ("role", JsString (form_role formData));
      ("email", JsString (form_email formData));
      ("password", JsString (form_password formData))]
     ++ (if bool_decide (form_role formData = "student")
         then [("year", JsString (form_year formData));
               ("branch", JsString (form_branch formData))]
         else [("department", JsString (form_department formData))])).

(** [AsyncStorage.setItem('token', loginResponse.token)].  The store takes
    strings only; a missing token is refused.  (That case does not arise:
    [login] fulfils only with a token.) *)
Definition storeToken (token : option string) : Handler unit :=
  match token with
  | Some t => await (AsyncStorage_setItem "token" t)
  | None => raise (Error "AsyncStorage: value is not a string")
  end.

Definition handleSubmit (isLogin : bool) (formData : FormData) : Handler unit :=
  match validateForm_alert isLogin formData with
  | Some alert => emit alert
  | None =>
      emit (SetIsLoading true);;
      finally
        (catching
           (if isLogin then
              loginResponse ← await (login (form_username formData)
                                       (form_password formData));
              if bool_decide (ApiResponse.status loginResponse = "success") then
                storeToken (ApiResponse.token loginResponse);;
                await (AsyncStorage_setItem "userRole" (form_role formData));;
                navigateToAppropriateDashboard (form_role formData)
              else mret tt
            else
              signupResponse ← await (register (signupPayload formData));
              if bool_decide (ApiResponse.status signupResponse = "success") then
                emit (Alert "Success"
                        "Registration successful! Please login with your credentials.")
              else mret tt)
           (λ error, emit (Alert "Connection Error" "Unable to connect to the server")))
        (emit (SetIsLoading false))
  end.

(** [checkExistingSession], run when the screen mounts.  [JSON_parse] is
    the platform's parser: it throws or yields a value. *)
Definition checkExistingSession (JSON_parse : string → JsError.t + JsValue) :
  Handler unit :=
  catching
    (token ← await (AsyncStorage_getItem "token");
     userString ← await (AsyncStorage_getItem "user");
     match token, userString with
     | Some t, Some u =>
         if truthy t && truthy u then
           match JSON_parse u with
           | inl error => raise error
           | inr user =>
               match user with
               | JsNull | JsUndefined =>
                   raise (Error "Cannot read properties of null (reading 'role')")
               | _ =>
                   match js_prop "role" user with
                   | JsString role => navigateToAppropriateDashboard role
                   | _ => mret tt
                   end
               end
           end
         else mret tt
     | _, _ => mret tt
     end)
    (λ error, mret tt).

(** Everything that can happen on this screen and through the client. *)
Inductive AppAction : Type :=
| Client (a : Action)
| Submit (isLogin : bool) (formData : FormData)
| CheckSession (JSON_parse : string → JsError.t + JsValue).

Definition app_step (a : AppAction) (net : Transport) (w : World) : World :=
  match a with
  | Client a => step a net w
  | Submit isLogin formData => world_left (handleSubmit isLogin formData net w)
  | CheckSession JSON_parse => world_left (checkExistingSession JSON_parse net w)
  end.

Inductive AppReachable : World → Prop :=
| AppReachable_new (kv : gmap string string) :
    kv !! "token" = None → kv !! "user" = None → AppReachable (mkWorld kv None)
| AppReachable_step (a : AppAction) (net : Transport) (w : World) :
    AppReachable w → AppReachable (app_step a net w).




(** ** The student dashboard ([StudentDashboard]) *)

(** [Promise.all] of two calls: both are started, whatever becomes of the
    other; it fulfils with both results.  When both reject, which error
    comes out depends on timing; it is used here only where the error is
    thrown away. *)
Definition promise_all2 {A B} (a : Async A) (b : Async B) : Async (A * B) :=
  λ net w,
    let '(ra, w1, out1) := a net w in
    let '(rb, w2, out2) := b net w1 in
    (match ra, rb with
     | Fulfilled x, Fulfilled y => Fulfilled (x, y)
     | Rejected e, _ => Rejected e
     | Fulfilled _, Rejected e => Rejected e
     end, w2, out1 ++ out2).

(** The client's [checkout], under a name the action of the same name does
    not hide. *)
Definition apiService_checkout : Async ApiResponse.t := checkout.

Module StudentDashboard.

(** The state kept by the hook [useApiCall]. *)
Record HookState : Type := mkHookState {
  data : option JsValue;
  loading : bool;
  error : option string;
  refreshing : bool
}.

(** [useState] initial values. *)
Definition initialState : HookState :=
  {| data := None; loading := true; error := None; refreshing := false |}.

Definition setState (h : HookState) (e : UiEvent) : HookState :=
  match e with
  | SetData v =>
      {| data := Some v; loading := loading h; error := error h;
         refreshing := refreshing h |}
  | SetError o =>
      {| data := data h; loading := loading h; error := o;
         refreshing := refreshing h |}
  | SetLoading b =>
      {| data := data h; loading := b; error := error h;
         refreshing := refreshing h |}
  | SetRefreshing b =>
      {| data := data h; loading := loading h; error := error h;
         refreshing := b |}
  | _ => h
  end.

(** The hook's state once the logged setters have run. *)
Definition stateAfter (h : HookState) (log : list UiEvent) : HookState :=
  fold_left setState log h.

Definition fetchData (apiFunction : Async JsValue) : Handler unit :=
  finally
    (catching
       (emit (SetError None);;
        result ← await apiFunction;
        emit (SetData result))
       (λ err, emit (SetError (Some (JsError.message err)))))
    (emit (SetLoading false);; emit (SetRefreshing false)).

Definition onRefresh (apiFunction : Async JsValue) : Handler unit :=
  emit (SetRefreshing true);; fetchData apiFunction.

(** The loader of [OverviewScreen]. *)
Definition dashboardData (attendanceRate upcomingClasses pendingCorrections : JsValue) :
  JsValue :=
  JsObject [("attendanceRate", attendanceRate);
            ("upcomingClasses", upcomingClasses);
            ("pendingCorrections", pendingCorrections)].

(** [data?.key]. *)
Definition optional_prop (key : string) (v : JsValue) : JsValue :=
  match v with
  | JsNull | JsUndefined => JsUndefined
  | _ => js_prop key v
  end.

Definition overviewLoader : Async JsValue :=
  try_catch
    (both ← promise_all2 getAttendanceAnalytics getStudentProfile;
     let analytics := both.1 in
     mret (dashboardData
             (js_or (optional_prop "overallAttendance" (ApiResponse.data analytics))
                (JsNumber 0))
             (js_or (optional_prop "upcomingClasses" (ApiResponse.data analytics))
                (JsNumber 0))
             (js_or (optional_prop "pendingCorrections" (ApiResponse.data analytics))
                (JsNumber 0))))
    (λ error, mret (dashboardData (JsNumber 0) (JsNumber 0) (JsNumber 0))).

(** The loader of [TimetableScreen]. *)
Definition timetableLoader : Async JsValue :=
  try_catch
    (response ← getTimetable;
     match ApiResponse.timetable response with
     | Some timetable =>
         if negb (js_truthy timetable)
         then throw (Error "Invalid API response structure")
         else mret timetable
     | None => throw (Error "Invalid API response structure")
     end)
    (λ error, throw error).

(** The loader of [ProfileScreen]. *)
Definition profileLoader : Async JsValue :=
  response ← getStudentProfile; mret (ApiResponse.data response).

Inductive AttendanceAction : Type := checkin | checkout.

Definition TIME_FORMAT_SIGNATURE : string :=
  "operator does not exist: character varying <= time without time zone".

Definition handleMarkAttendance (action : AttendanceAction) : Handler unit :=
  finally
    (catching
       (emit (SetMarkingAttendance true);;
        let attendanceData :=
          JsObject [("wifi_name", JsString "Campus_WiFi");
                    ("block_name", JsString "Main_Block")] in
        match action with
        | checkin =>
            await (markAttendance attendanceData);;
            emit (Alert "Success" "Attendance marked successfully")
        | checkout =>
            await apiService_checkout;;
            emit (Alert "Success" "Checked out successfully")
        end;;
        emit OnRefresh)
       (λ error,
          if includes (JsError.message error) TIME_FORMAT_SIGNATURE
          then emit (Alert "Error"
                       "There was an issue with the time format. Please try again later.")
          else emit (Alert "Error" (JsError.message error))))
    (emit (SetMarkingAttendance false);; emit (SetAttendanceModalVisible false)).

Definition handleRequestCorrection (attendance_id reason : string) : Handler unit :=
  catching
    (await (requestAttendanceCorrection
              (JsObject [("attendance_id", JsString attendance_id);
                         ("reason", JsString reason)]));;
     emit (Alert "Success" "Correction request submitted");;
     emit OnRefresh)
    (λ error,
       if includes (JsError.message error) "foreign key constraint"
       then emit (Alert "Error" "Attendance ID does not match any existing record.")
       else emit (Alert "Error" (JsError.message error))).

Definition handleUpdateProfile (updatedData : JsValue) : Handler unit :=
  catching
    (response ← await (updateStudentProfile updatedData);
     if bool_decide (ApiResponse.status response = "success") then
       emit (Alert "Success" "Profile updated successfully");;
       newProfile ← await getStudentProfile;
       emit OnRefresh
     else mret tt)
    (λ error, emit (Alert "Error" (JsError.message error))).

End StudentDashboard.

(** ** The faculty dashboard ([FacultyDashboard]) *)

Module FacultyDashboard.

(** [StudentsScreen.fetchAnalytics]. *)
Definition fetchAnalytics : Handler unit :=
  emit (SetLoading true);;
  finally
    (catching
       (response ← await getStudentAnalytics;
        if js_truthy (ApiResponse.data response) then
          emit (SetStudentAnalytics (ApiResponse.data response));;
          emit (SetError None)
        else emit (SetError (Some "Invalid data received from server")))
       (λ error,
          emit (SetError
                  (Some "Unable to fetch analytics data. Please check your connection."))))
    (emit (SetLoading false)).

(** [TimetableScreen.fetchTimetable]:
    [setTimetable(response.data.data || [])]; reading [.data] of [null] or
    [undefined] throws. *)
Definition fetchTimetable : Handler unit :=
  catching
    (response ← await getTimetableEntries;
     match ApiResponse.data response with
     | JsNull | JsUndefined =>
         raise (Error "Cannot read properties of undefined (reading 'data')")
     | data => emit (SetTimetable (js_or (js_prop "data" data) (JsArray [])))
     end)
    (λ error, mret tt).

(** [TimetableScreen.handleAddTimetable]. *)
Definition handleAddTimetable (newEntry : JsValue) : Handler unit :=
  catching
    (await (enterTimetable newEntry);;
     emit (Alert "Success" "Timetable entry added successfully");;
     emit FetchAgain;;
     emit ResetForm)
    (λ error, emit (Alert "Error" "Failed to add timetable entry")).

End FacultyDashboard.

(** ** More sample values *)

Definition login_form : FormData :=
  {| form_id := ""; form_name := ""; form_role := "student"; form_email := "";
     form_password := "Secret1!"; form_year := ""; form_branch := "";
     form_department := ""; form_username := "alice" |}.

Definition student_form : FormData :=
  {| form_id := "21CS001"; form_name := "Alice"; form_role := "student";
     form_email := "alice@example.org"; form_password := "Secret1!";
     form_year := "2"; form_branch := "CSE"; form_department := "";
     form_username := "" |}.

Definition checkin_body : JsValue :=
  JsObject [("wifi_name", JsString "Campus_WiFi");
            ("block_name", JsString "Main_Block")].

Definition analytics_envelope : ApiResponse.t :=
  envelope "success" None None
    (JsObject [("overallAttendance", JsNumber 82); ("upcomingClasses", JsNumber 0)]).

Definition entries_envelope : ApiResponse.t :=
  envelope "success" None None
    (JsArray [JsObject [("day", JsString "Monday"); ("period", JsString "1")]]).

(** A refusal of the credentials: a 401 with a message. *)
Definition badCredentials : JsError.t :=
  {| JsError.isAxiosError := true;
     JsError.response :=
       Some (AxiosResponse.mk 401
               (Some (envelope "error" None (Some "Invalid username or password")
                        JsNull)));
     JsError.code := Some "ERR_BAD_REQUEST";
     JsError.message := "Request failed with status code 401" |}.

(** * Properties *)

(** ** How a call runs *)

Ltac unfold_operations :=
  unfold register, checkout, getStudentAnalytics, getStudentProfile,
    updateStudentProfile, markAttendance, getTimetableEntries, getTimetable,
    getAttendanceHistory, getAttendanceAnalytics, getAttendanceReport,
    requestAttendanceCorrection, getFacultyProfile, updateFacultyProfile,
    enterTimetable, getAttendanceStatistics, getDetainedStudents,
    exportAttendance, getUnreadNotifications, getOverallAnalytics,
    getPendingRequests, getStudentsByAttendance, updateAttendance,
    fetch, post, put, api_get, api_post, api_put.

Lemma requestInterceptor_run config net w :
  requestInterceptor config net w = (Fulfilled (outgoing w config), w, []).
Proof.
  unfold requestInterceptor, outgoing, getToken, AsyncStorage_getItem,
    mbind, async_bind, mret, async_ret.
  destruct (asyncStorage w !! "token") as [t|]; [destruct (truthy t)|];
    reflexivity.
Qed.

Lemma request_run config net w :
  request config net w
  = (normalized id (net (outgoing w config)), w, [outgoing w config]).
Proof.
  unfold request, try_catch. unfold mbind at 1. unfold async_bind.
  rewrite requestInterceptor_run.
  unfold dispatchRequest, responseInterceptor, throw.
  destruct (net (outgoing w config)); reflexivity.
Qed.

Lemma truthy_or_else a b : truthy b = true → truthy (or_else a b) = true.
Proof.
  intros Hb. destruct a as [s|]; simpl; [destruct (truthy s) eqn:E|]; done.
Qed.

Lemma or_else_truthy s b : truthy s = true → or_else (Some s) b = s.
Proof. intros Hs. simpl. by rewrite Hs. Qed.

(** Every error the client builds carries a non-empty message. *)
Lemma handleApiError_truthy e : truthy (JsError.message (handleApiError e)) = true.
Proof.
  unfold handleApiError, Error. cbn [JsError.message].
  do 2 apply truthy_or_else. reflexivity.
Qed.

Lemma handleApiError_Error m : truthy m = true → handleApiError (Error m) = Error m.
Proof. intros H. unfold handleApiError. simpl. by rewrite H. Qed.

(** Normalising twice (interceptor, then a [catch] block) changes nothing. *)
Lemma handleApiError_idem e : handleApiError (handleApiError e) = handleApiError e.
Proof.
  pose proof (handleApiError_truthy e) as H.
  unfold handleApiError in *. simpl in *. by rewrite H.
Qed.

(** With no response, the message is the transport error's own message. *)
Lemma handleApiError_no_response e :
  JsError.response e = None →
  handleApiError e
  = Error (or_else (Some (JsError.message e)) "An unexpected error occurred").
Proof. intros H. unfold handleApiError. by rewrite H. Qed.

(** Every operation but [login]: one request, the world untouched, the
    transport's answer passed on (bodies as they are, errors normalised). *)
Lemma call_run op net w :
  is_login op = false →
  call op net w
  = (normalized AxiosResponse.data (net (wire op w)), w, [wire op w]).
Proof.
  intros Hop. unfold wire.
  destruct op; try discriminate Hop; clear Hop; simpl;
    unfold_operations; unfold try_catch, mbind, async_bind;
    rewrite request_run;
    destruct (net _) as [r|e]; simpl; rewrite ?handleApiError_idem; reflexivity.
Qed.

Lemma login_run username password net w :
  login username password net w
  = (login_outcome w (net (wire (Login username password) w)),
     [wire (Login username password) w]).
Proof.
  unfold login, wire, api_post, try_catch. cbn [config_of].
  unfold mbind at 1. unfold async_bind at 1.
  rewrite request_run.
  destruct (net _) as [r|e]; cbn [normalized login_outcome id].
  - destruct (ApiResponse.token (AxiosResponse.data r)) as [t|]; [|reflexivity].
    destruct (bool_decide _ && truthy t); reflexivity.
  - cbn [handleApiError Error JsError.isAxiosError andb throw].
    rewrite handleApiError_idem. reflexivity.
Qed.

Lemma sent_call op net w : sent (call op net w) = [wire op w].
Proof.
  destruct (is_login op) eqn:Hop.
  - destruct op; try discriminate Hop. simpl. by rewrite login_run.
  - by rewrite call_run.
Qed.

(** ** Headers on the wire *)

Lemma config_of_no_authorization op :
  AxiosRequestConfig.headers (config_of op) !! "Authorization" = None.
Proof. destruct op; reflexivity. Qed.

(** In any world: the bearer header is there exactly when the stored token
    is a non-empty string. *)
Lemma wire_authorization op w :
  AxiosRequestConfig.headers (wire op w) !! "Authorization"
  = match asyncStorage w !! "token" with
    | Some t => if truthy t then Some ("Bearer " +:+ t) else None
    | None => None
    end.
Proof.
  unfold wire, outgoing.
  destruct (asyncStorage w !! "token") as [t|];
    [destruct (truthy t)|]; auto using config_of_no_authorization.
  unfold withAuthorization. cbn [AxiosRequestConfig.headers].
  apply lookup_insert_eq.
Qed.

(** The interceptor touches nothing but the headers. *)
Lemma wire_data op w :
  AxiosRequestConfig.data (wire op w) = AxiosRequestConfig.data (config_of op).
Proof.
  unfold wire, outgoing.
  destruct (asyncStorage w !! "token") as [t|]; [destruct (truthy t)|]; reflexivity.
Qed.

Lemma wire_url op w :
  AxiosRequestConfig.url (wire op w) = AxiosRequestConfig.url (config_of op).
Proof.
  unfold wire, outgoing.
  destruct (asyncStorage w !! "token") as [t|]; [destruct (truthy t)|]; reflexivity.
Qed.

Lemma wire_method op w :
  AxiosRequestConfig.method (wire op w) = AxiosRequestConfig.method (config_of op).
Proof.
  unfold wire, outgoing.
  destruct (asyncStorage w !! "token") as [t|]; [destruct (truthy t)|]; reflexivity.
Qed.

(** ** What each action does to the local state *)

Lemma logout_run net w :
  logout net w
  = (Fulfilled tt,
     {| asyncStorage := delete "token" (asyncStorage w); currentUser := None |},
     []).
Proof. reflexivity. Qed.

Lemma call_storage op net w :
  is_login op = false →
  asyncStorage (world_after (call op net w)) = asyncStorage w.
Proof. intros Hop. by rewrite call_run. Qed.

Lemma login_outcome_currentUser w answer :
  currentUser (login_outcome w answer).2 = currentUser w.
Proof.
  destruct answer as [r|e]; simpl; [|reflexivity].
  destruct (ApiResponse.token _) as [t|]; [|reflexivity].
  destruct (_ && _); reflexivity.
Qed.

Lemma call_currentUser op net w :
  currentUser (world_after (call op net w)) = currentUser w.
Proof.
  destruct (is_login op) eqn:Hop.
  - destruct op; try discriminate Hop. simpl. rewrite login_run.
    apply login_outcome_currentUser.
  - by rewrite call_run.
Qed.

Lemma login_outcome_token_nonempty w answer :
  token_nonempty w → token_nonempty (login_outcome w answer).2.
Proof.
  intros Hw. destruct answer as [r|e]; simpl; [|done].
  destruct (ApiResponse.token _) as [t|]; [|done].
  destruct (bool_decide _) eqn:Hs; simpl; [|done].
  destruct (truthy t) eqn:Ht; [|done].
  intros t'. simpl. rewrite lookup_insert_eq. congruence.
Qed.

Lemma step_token_nonempty a net w :
  token_nonempty w → token_nonempty (step a net w).
Proof.
  intros Hw. destruct a as [op|]; simpl.
  - destruct (is_login op) eqn:Hop.
    + destruct op; try discriminate Hop. simpl. rewrite login_run.
      by apply login_outcome_token_nonempty.
    + by rewrite call_run.
  - intros t. rewrite logout_run. simpl. by rewrite lookup_delete_eq.
Qed.

Lemma Reachable_token_nonempty w : Reachable w → token_nonempty w.
Proof.
  induction 1 as [kv Hkv|a net w _ IH].
  - intros t. simpl. congruence.
  - by apply step_token_nonempty.
Qed.

Lemma Reachable_wire_authorization op w :
  Reachable w →
  AxiosRequestConfig.headers (wire op w) !! "Authorization"
  = (λ t, "Bearer " +:+ t) <$> asyncStorage w !! "token".
Proof.
  intros Hw. rewrite wire_authorization.
  pose proof (Reachable_token_nonempty w Hw) as Hne.
  destruct (asyncStorage w !! "token") as [t|] eqn:Ht; [|reflexivity].
  by rewrite (Hne t Ht).
Qed.

Lemma Reachable_run script w : Reachable w → Reachable (run script w).
Proof.
  revert w. induction script as [|[a net] more IH]; intros w Hw; simpl; [done|].
  apply IH. by constructor.
Qed.

Lemma run_keeps_storage script w :
  Forall (λ s, keeps_session s.1 = true) script →
  asyncStorage (run script w) = asyncStorage w.
Proof.
  revert w. induction script as [|[a net] more IH]; intros w Hs; simpl; [done|].
  inversion Hs as [|? ? Ha Hmore]; subst. rewrite IH by done.
  destruct a as [op|]; [|discriminate Ha]. simpl in *.
  apply call_storage. by destruct (is_login op).
Qed.

(** ** Successful answers *)

(** C1, as stated, fails: [getStudentProfile] against a server answering
    [{status: "success", data: {name, role}}] hands the caller the whole
    envelope, which is not its [data] field. *)
Lemma C1_counterexample_profile_returns_envelope :
  ¬ returns_designated_field GetStudentProfile (answering profile_envelope) fresh_install.
Proof.
  intros H.
  destruct (H (AxiosResponse.mk 200 profile_envelope) eq_refl eq_refl)
    as (v & Hv & Hfield).
  rewrite call_run in Hv by reflexivity.
  injection Hv as <-. discriminate Hfield.
Qed.

(** C1 (amended): for every operation, when the transport succeeds and the
    envelope has status ["success"] (and, for [login], a non-empty token),
    the operation returns the whole response envelope, unmodified; reading
    [data] or [timetable] out of it is left to the caller. *)
Theorem C1_success_returns_whole_envelope op net w r :
  net (wire op w) = Fulfilled r →
  ApiResponse.status (AxiosResponse.data r) = "success" →
  (is_login op = true → truthy_opt (ApiResponse.token (AxiosResponse.data r)) = true) →
  settled (call op net w) = Fulfilled (AxiosResponse.data r).
Proof.
  intros Hnet Hstatus Htoken.
  destruct (is_login op) eqn:Hop.
  - destruct op; try discriminate Hop. simpl.
    rewrite login_run, Hnet. unfold settled. cbn [login_outcome fst].
    specialize (Htoken eq_refl).
    destruct (ApiResponse.token (AxiosResponse.data r)) as [t|]; [|discriminate].
    simpl in Htoken. rewrite Htoken, bool_decide_eq_true_2 by done. reflexivity.
  - rewrite call_run, Hnet by done. reflexivity.
Qed.

Lemma C1_witness_student_timetable :
  settled (call GetTimetable (answering profile_envelope) fresh_install)
  = Fulfilled profile_envelope.
Proof.
  apply (C1_success_returns_whole_envelope GetTimetable
           (answering profile_envelope) fresh_install (AxiosResponse.mk 200 profile_envelope)).
  - reflexivity.
  - reflexivity.
  - discriminate.
Defined.

(** ** The bearer token on outgoing requests *)

(** C2: in every state the client can be in, every operation issues its
    one request whether or not a token is stored; the request carries
    [Authorization: Bearer t] when token [t] is stored and no
    [Authorization] header when none is.  After [logout], and through any
    further operations other than [login], requests carry no such header. *)
Theorem C2_bearer_token_attached_when_stored op net w :
  Reachable w →
  (∃ req, sent (call op net w) = [req]
          ∧ AxiosRequestConfig.headers req !! "Authorization"
            = (λ t, "Bearer " +:+ t) <$> asyncStorage w !! "token")
  ∧ (∀ net0 script,
       Forall (λ s, keeps_session s.1 = true) script →
       ∃ req, sent (call op net (run script (step Logout net0 w))) = [req]
              ∧ AxiosRequestConfig.headers req !! "Authorization" = None).
Proof.
  intros Hw. split.
  - exists (wire op w). split; [apply sent_call|].
    by apply Reachable_wire_authorization.
  - intros net0 script Hscript.
    set (w' := run script (step Logout net0 w)).
    exists (wire op w'). split; [apply sent_call|].
    rewrite wire_authorization. unfold w'.
    rewrite run_keeps_storage by done.
    unfold step. rewrite logout_run. unfold world_after.
    cbn [fst snd asyncStorage]. by rewrite lookup_delete_eq.
Qed.

Lemma Reachable_logged_in : Reachable logged_in.
Proof. apply Reachable_step, Reachable_new. reflexivity. Defined.

Lemma C2_witness_after_login :
  (∃ req, sent (call GetAttendanceHistory (answering profile_envelope) logged_in) = [req]
          ∧ AxiosRequestConfig.headers req !! "Authorization"
            = (λ t, "Bearer " +:+ t) <$> asyncStorage logged_in !! "token")
  ∧ (∀ net0 script,
       Forall (λ s, keeps_session s.1 = true) script →
       ∃ req, sent (call GetAttendanceHistory (answering profile_envelope)
                      (run script (step Logout net0 logged_in))) = [req]
              ∧ AxiosRequestConfig.headers req !! "Authorization" = None).
Proof.
  apply (C2_bearer_token_attached_when_stored GetAttendanceHistory
           (answering profile_envelope) logged_in).
  exact Reachable_logged_in.
Defined.

(** ** Answers whose status is not ["success"] *)

(** C3, as stated, fails: [markAttendance] answered with
    [{status: "error", message: ...}] raises nothing and returns the
    envelope. *)
Lemma C3_counterexample_markAttendance_returns_refusal :
  ¬ raises_envelope_message (MarkAttendance attendance_body)
      (answering refusal_envelope) fresh_install.
Proof.
  intros H.
  destruct (H (AxiosResponse.mk 200 refusal_envelope) eq_refl) as (e & He & _).
  - discriminate.
  - rewrite call_run in He by reflexivity. discriminate He.
Qed.

(** C3 (amended): when the transport succeeds but the envelope's status is
    not ["success"], every operation other than [login] raises nothing and
    returns the envelope to the caller as it is (the caller inspects
    [status]); [login] raises an error with the fixed message
    ["Invalid login response"]. *)
Theorem C3_non_success_envelope_is_returned op net w r :
  net (wire op w) = Fulfilled r →
  ApiResponse.status (AxiosResponse.data r) ≠ "success" →
  settled (call op net w)
  = if is_login op then Rejected (Error "Invalid login response")
    else Fulfilled (AxiosResponse.data r).
Proof.
  intros Hnet Hstatus.
  destruct (is_login op) eqn:Hop.
  - destruct op; try discriminate Hop. simpl.
    rewrite login_run, Hnet. unfold settled. cbn [login_outcome fst].
    destruct (ApiResponse.token (AxiosResponse.data r)) as [t|]; [|reflexivity].
    by rewrite bool_decide_eq_false_2.
  - rewrite call_run, Hnet by done. reflexivity.
Qed.

Lemma C3_witness_markAttendance :
  settled (call (MarkAttendance attendance_body) (answering refusal_envelope)
             fresh_install)
  = Fulfilled refusal_envelope.
Proof.
  apply (C3_non_success_envelope_is_returned (MarkAttendance attendance_body)
           (answering refusal_envelope) fresh_install
           (AxiosResponse.mk 200 refusal_envelope)).
  - reflexivity.
  - discriminate.
Defined.

(** ** Transport failures *)

Lemma call_no_response op net w e :
  is_login op = false →
  net (wire op w) = Rejected e →
  no_response e →
  settled (call op net w) = Rejected (Error (own_message e)).
Proof.
  intros Hop Hnet He. rewrite call_run, Hnet by done.
  unfold settled. cbn [normalized fst]. by rewrite handleApiError_no_response.
Qed.

(** C4, as stated, fails: a profile fetch whose deadline expires raises
    axios's own text, ["timeout of 20000ms exceeded"], not the fixed
    timeout message. *)
Lemma C4_counterexample_profile_timeout :
  ¬ raises_timeout_message GetStudentProfile (failing (timeoutError "20000"))
      fresh_install.
Proof.
  intros H.
  specialize (H (timeoutError "20000") eq_refl).
  rewrite call_run in H by reflexivity.
  discriminate H. repeat split.
Qed.

(** C4 (amended): for every operation other than [login], a transport
    failure caused by an expired deadline raises an error whose message is
    the transport error's own message (the generic fallback when that is
    empty); no fixed timeout message is substituted.  The fixed timeout
    message that [login]'s handler names is distinct from the fixed
    connectivity message. *)
Theorem C4_timeout_keeps_transport_message op net w e :
  is_login op = false →
  net (wire op w) = Rejected e →
  timed_out e →
  settled (call op net w) = Rejected (Error (own_message e))
  ∧ TIMEOUT_MESSAGE ≠ CONNECTIVITY_MESSAGE.
Proof.
  intros Hop Hnet (_ & _ & He). split; [|discriminate].
  by apply call_no_response.
Qed.

Lemma C4_witness_profile_timeout :
  settled (call GetStudentProfile (failing (timeoutError "20000")) fresh_install)
  = Rejected (Error "timeout of 20000ms exceeded")
  ∧ TIMEOUT_MESSAGE ≠ CONNECTIVITY_MESSAGE.
Proof.
  apply (C4_timeout_keeps_transport_message GetStudentProfile
           (failing (timeoutError "20000")) fresh_install (timeoutError "20000")).
  - reflexivity.
  - reflexivity.
  - repeat split.
Defined.

(** C5, as stated, fails: a profile fetch on a lost connection raises
    axios's ["Network Error"], not the fixed connectivity message. *)
Lemma C5_counterexample_profile_network_error :
  ¬ raises_connectivity_message GetStudentProfile (failing networkError)
      fresh_install.
Proof.
  intros H.
  specialize (H networkError eq_refl eq_refl).
  rewrite call_run in H by reflexivity.
  discriminate H.
Qed.

(** C5 (amended): for every operation other than [login], a transport
    failure with no response raises an error whose message is the
    underlying error's own message (the generic fallback when that is
    empty), so it varies with the cause; no fixed connectivity message is
    substituted. *)
Theorem C5_no_response_keeps_transport_message op net w e :
  is_login op = false →
  net (wire op w) = Rejected e →
  no_response e →
  settled (call op net w) = Rejected (Error (own_message e)).
Proof. apply call_no_response. Qed.

Lemma C5_witness_checkout_network_error :
  settled (call Checkout (failing networkError) fresh_install)
  = Rejected (Error "Network Error").
Proof.
  apply (C5_no_response_keeps_transport_message Checkout (failing networkError)
           fresh_install networkError).
  - reflexivity.
  - reflexivity.
  - reflexivity.
Defined.

(** For the record, [login] on the same two failures: the interceptor has
    already replaced the axios error by a plain one, so neither fixed
    message of its handler is produced. *)
Example login_on_timeout :
  settled (login "alice" "Secret1!" (failing (timeoutError "15000")) fresh_install)
  = Rejected (Error "timeout of 15000ms exceeded").
Proof. reflexivity. Qed.

Example login_on_network_error :
  settled (login "alice" "Secret1!" (failing networkError) fresh_install)
  = Rejected (Error "Network Error").
Proof. reflexivity. Qed.

(** ** Login *)

Lemma login_success username password net w r t :
  net (wire (Login username password) w) = Fulfilled r →
  ApiResponse.status (AxiosResponse.data r) = "success" →
  ApiResponse.token (AxiosResponse.data r) = Some t →
  truthy t = true →
  login username password net w
  = (Fulfilled (AxiosResponse.data r),
     {| asyncStorage := <["token" := t]> (asyncStorage w);
        currentUser := currentUser w |},
     [wire (Login username password) w]).
Proof.
  intros Hnet Hstatus Htoken Ht.
  rewrite login_run, Hnet. cbn [login_outcome].
  by rewrite Htoken, Ht, bool_decide_eq_true_2.
Qed.

(** C6: [login("alice", "Secret1!")] answered with
    [{status: "success", token: "T1"}] fulfils with that envelope and
    leaves ["T1"] under the key ["token"]; a profile fetch issued
    afterwards, also after any further operations other than [login] and
    [logout], sends [GET /student/profile] with header
    [Authorization: Bearer T1]. *)
Theorem C6_login_stores_token_then_profile_sends_it net w r script net' :
  net (wire (Login "alice" "Secret1!") w) = Fulfilled r →
  ApiResponse.status (AxiosResponse.data r) = "success" →
  ApiResponse.token (AxiosResponse.data r) = Some "T1" →
  Forall (λ s, keeps_session s.1 = true) script →
  settled (login "alice" "Secret1!" net w) = Fulfilled (AxiosResponse.data r)
  ∧ asyncStorage (world_after (login "alice" "Secret1!" net w)) !! "token" = Some "T1"
  ∧ ∃ req,
      sent (getStudentProfile net'
              (run script (world_after (login "alice" "Secret1!" net w)))) = [req]
      ∧ AxiosRequestConfig.method req = GET
      ∧ AxiosRequestConfig.url req = "/student/profile"
      ∧ AxiosRequestConfig.headers req !! "Authorization" = Some "Bearer T1".
Proof.
  intros Hnet Hstatus Htoken Hscript.
  rewrite (login_success _ _ _ _ _ _ Hnet Hstatus Htoken eq_refl).
  unfold settled, world_after. cbn [fst snd asyncStorage].
  split; [reflexivity|]. split; [apply lookup_insert_eq|].
  match goal with |- context [run script ?w0] => set (w1 := run script w0) end.
  exists (wire GetStudentProfile w1).
  split; [apply (sent_call GetStudentProfile)|].
  rewrite wire_method, wire_url, wire_authorization.
  do 2 (split; [reflexivity|]).
  unfold w1. rewrite run_keeps_storage by done.
  cbn [asyncStorage]. by rewrite lookup_insert_eq.
Qed.

Lemma C6_witness_alice :
  settled (login "alice" "Secret1!" (answering token_envelope) fresh_install)
  = Fulfilled token_envelope
  ∧ asyncStorage
      (world_after (login "alice" "Secret1!" (answering token_envelope) fresh_install))
      !! "token" = Some "T1"
  ∧ ∃ req,
      sent (getStudentProfile (answering profile_envelope)
              (run [(Invoke GetAttendanceHistory, failing networkError)]
                 (world_after
                    (login "alice" "Secret1!" (answering token_envelope)
                       fresh_install)))) = [req]
      ∧ AxiosRequestConfig.method req = GET
      ∧ AxiosRequestConfig.url req = "/student/profile"
      ∧ AxiosRequestConfig.headers req !! "Authorization" = Some "Bearer T1".
Proof.
  apply (C6_login_stores_token_then_profile_sends_it (answering token_envelope)
           fresh_install (AxiosResponse.mk 200 token_envelope)
           [(Invoke GetAttendanceHistory, failing networkError)]
           (answering profile_envelope)).
  - reflexivity.
  - reflexivity.
  - reflexivity.
  - repeat constructor.
Defined.

(** C9: when the transport succeeds but the envelope's status is not
    ["success"], or its token is absent or empty, [login] raises an error
    with message ["Invalid login response"] and leaves the local state,
    the stored credential included, as it was. *)
Theorem C9_invalid_login_response username password net w r :
  net (wire (Login username password) w) = Fulfilled r →
  ApiResponse.status (AxiosResponse.data r) ≠ "success"
  ∨ truthy_opt (ApiResponse.token (AxiosResponse.data r)) = false →
  settled (login username password net w) = Rejected (Error "Invalid login response")
  ∧ asyncStorage (world_after (login username password net w)) = asyncStorage w
  ∧ world_after (login username password net w) = w.
Proof.
  intros Hnet Hbad. rewrite login_run, Hnet.
  unfold settled, world_after. cbn [login_outcome fst snd].
  destruct (ApiResponse.token (AxiosResponse.data r)) as [t|]; [|done].
  destruct Hbad as [Hstatus|Htoken].
  - by rewrite bool_decide_eq_false_2.
  - simpl in Htoken. by rewrite Htoken, andb_false_r.
Qed.

Lemma C9_witness_empty_token :
  settled (login "alice" "Secret1!"
             (answering (envelope "success" (Some "") None JsNull)) logged_in)
  = Rejected (Error "Invalid login response")
  ∧ asyncStorage
      (world_after
         (login "alice" "Secret1!"
            (answering (envelope "success" (Some "") None JsNull)) logged_in))
    = asyncStorage logged_in
  ∧ world_after
      (login "alice" "Secret1!"
         (answering (envelope "success" (Some "") None JsNull)) logged_in)
    = logged_in.
Proof.
  apply (C9_invalid_login_response "alice" "Secret1!"
           (answering (envelope "success" (Some "") None JsNull)) logged_in
           (AxiosResponse.mk 200 (envelope "success" (Some "") None JsNull))).
  - reflexivity.
  - right. reflexivity.
Defined.

(** ** Local persistent state *)

(** C7: every operation other than [login] leaves the store exactly as it
    was, whatever the network answers; [login] writes the received token
    under ["token"] when it fulfils and leaves the store as it was when it
    rejects; [logout] removes the key ["token"] and sends nothing. *)
Theorem C7_only_login_and_logout_touch_storage net w :
  (∀ op, is_login op = false →
         asyncStorage (world_after (call op net w)) = asyncStorage w)
  ∧ (∀ username password,
       match settled (login username password net w) with
       | Fulfilled env =>
           ∃ t, ApiResponse.token env = Some t
                ∧ asyncStorage (world_after (login username password net w))
                  = <["token" := t]> (asyncStorage w)
       | Rejected _ =>
           asyncStorage (world_after (login username password net w))
           = asyncStorage w
       end)
  ∧ asyncStorage (world_after (logout net w)) = delete "token" (asyncStorage w)
  ∧ sent (logout net w) = [].
Proof.
  split; [intros op Hop; by apply call_storage|].
  split; [|split; reflexivity].
  intros username password. rewrite login_run.
  unfold settled, world_after. cbn [fst snd].
  destruct (net _) as [r|e]; cbn [login_outcome]; [|reflexivity].
  destruct (ApiResponse.token (AxiosResponse.data r)) as [t|] eqn:Ht;
    [|reflexivity].
  destruct (bool_decide _ && truthy t); cbn [fst snd asyncStorage]; [|reflexivity].
  by exists t.
Qed.

Lemma C7_witness_register_keeps_token :
  asyncStorage
    (world_after (call (Register JsNull) (failing networkError) logged_in))
  = asyncStorage logged_in.
Proof.
  apply (proj1 (C7_only_login_and_logout_touch_storage (failing networkError)
                  logged_in) (Register JsNull)).
  reflexivity.
Defined.

(** C10: in every state the client can be in, [currentUser] is null; no
    operation, a successful login included, changes the field, and
    [logout] assigns null to it again. *)
Theorem C10_currentUser_is_always_null w :
  Reachable w →
  currentUser w = None
  ∧ (∀ op net, currentUser (world_after (call op net w)) = None)
  ∧ (∀ net, currentUser (world_after (logout net w)) = None).
Proof.
  intros Hw.
  assert (currentUser w = None) as Hnull.
  { induction Hw as [kv _|a net w _ IH]; [reflexivity|].
    destruct a as [op|]; simpl; [by rewrite call_currentUser|reflexivity]. }
  split; [done|]. split; [|reflexivity].
  intros op net. by rewrite call_currentUser.
Qed.

Lemma C10_witness_after_login :
  currentUser logged_in = None
  ∧ (∀ op net, currentUser (world_after (call op net logged_in)) = None)
  ∧ (∀ net, currentUser (world_after (logout net logged_in)) = None).
Proof.
  apply (C10_currentUser_is_always_null logged_in). exact Reachable_logged_in.
Defined.

(** ** Registration *)

(** A sign-up form with role ["student"] and no year is stopped by the
    screen's own check, whatever else it holds. *)
Lemma validateForm_student_needs_year formData :
  form_role formData = "student" →
  form_year formData = "" →
  validateForm false formData = false.
Proof.
  intros Hrole Hyear. unfold validateForm.
  rewrite Hrole. cbn [bool_decide decide_rel app].
  replace (bool_decide ("student" = "student")) with true by reflexivity.
  cbn [app all_filled].
  replace (form_field "id" formData) with (form_id formData) by reflexivity.
  replace (form_field "name" formData) with (form_name formData) by reflexivity.
  replace (form_field "email" formData) with (form_email formData) by reflexivity.
  replace (form_field "password" formData) with (form_password formData)
    by reflexivity.
  replace (form_field "year" formData) with (form_year formData) by reflexivity.
  rewrite Hyear.
  destruct (truthy (form_id formData)), (truthy (form_name formData)),
    (truthy (form_email formData)), (truthy (form_password formData));
    reflexivity.
Qed.

(** C8: [register] checks nothing: whatever payload it is given, a student
    record without [year] included, it sends exactly one request,
    [POST /shared/register], whose body is that payload as given, and its
    result is the transport's answer; the local state is untouched.  The
    check that turns such a form away lives in the sign-up screen
    ([validateForm]), which runs before the client is called. *)
Theorem C8_register_forwards_payload_unchecked userData net w formData :
  (∃ req,
     sent (register userData net w) = [req]
     ∧ AxiosRequestConfig.method req = POST
     ∧ AxiosRequestConfig.url req = "/shared/register"
     ∧ AxiosRequestConfig.data req = Some userData
     ∧ settled (register userData net w) = normalized AxiosResponse.data (net req)
     ∧ world_after (register userData net w) = w)
  ∧ (form_role formData = "student" → form_year formData = "" →
     validateForm false formData = false).
Proof.
  split; [|apply validateForm_student_needs_year].
  exists (wire (Register userData) w).
  pose proof (call_run (Register userData) net w eq_refl) as Hrun.
  cbn [call] in Hrun. rewrite Hrun.
  rewrite wire_method, wire_url, wire_data.
  repeat split.
Qed.

Lemma C8_witness_student_without_year :
  (∃ req,
     sent (register student_without_year (answering profile_envelope) fresh_install)
     = [req]
     ∧ AxiosRequestConfig.method req = POST
     ∧ AxiosRequestConfig.url req = "/shared/register"
     ∧ AxiosRequestConfig.data req = Some student_without_year
     ∧ settled (register student_without_year (answering profile_envelope)
                  fresh_install)
       = normalized AxiosResponse.data (answering profile_envelope req)
     ∧ world_after (register student_without_year (answering profile_envelope)
                      fresh_install) = fresh_install)
  ∧ validateForm false form_without_year = false.
Proof.
  destruct (C8_register_forwards_payload_unchecked student_without_year
              (answering profile_envelope) fresh_install form_without_year)
    as [Hsend Hform].
  split; [exact Hsend|]. apply Hform; reflexivity.
Defined.

(** The same form with the year filled in passes the screen's check. *)
Example validateForm_complete_student :
  validateForm false
    {| form_id := "21CS001"; form_name := "Alice"; form_role := "student";
       form_email := "alice@example.org"; form_password := "Secret1!";
       form_year := "2"; form_branch := "CSE"; form_department := "";
       form_username := "" |} = true.
Proof. reflexivity. Qed.

(** * Further properties of the client *)

(** ** Failures *)

Lemma call_on_failure op net w e0 :
  net (wire op w) = Rejected e0 →
  call op net w = (Rejected (handleApiError e0), w, [wire op w]).
Proof.
  intros Hnet. destruct (is_login op) eqn:Hop.
  - destruct op; try discriminate Hop. simpl. by rewrite login_run, Hnet.
  - by rewrite call_run, Hnet.
Qed.

(** On a transport failure every operation, [login] included, rejects with
    what [handleApiError] makes of the transport's error, and leaves the
    local state as it was: [login]'s own handler adds nothing. *)
Theorem transport_failure_is_normalised op net w e0 :
  net (wire op w) = Rejected e0 →
  settled (call op net w) = Rejected (handleApiError e0)
  ∧ world_after (call op net w) = w.
Proof. intros Hnet. by rewrite (call_on_failure _ _ _ _ Hnet). Qed.

Lemma transport_failure_is_normalised_witness :
  settled (call (Login "alice" "wrong") (failing badCredentials) fresh_install)
  = Rejected (handleApiError badCredentials)
  ∧ world_after (call (Login "alice" "wrong") (failing badCredentials) fresh_install)
    = fresh_install.
Proof.
  apply (transport_failure_is_normalised (Login "alice" "wrong")
           (failing badCredentials) fresh_install badCredentials).
  reflexivity.
Defined.

(** When the failure carries a response whose body has a non-empty
    [message], that message is the one raised, by every operation. *)
Theorem server_message_is_raised op net w e0 resp body m :
  net (wire op w) = Rejected e0 →
  JsError.response e0 = Some resp →
  AxiosResponse.data resp = Some body →
  ApiResponse.message body = Some m →
  truthy m = true →
  settled (call op net w) = Rejected (Error m).
Proof.
  intros Hnet Hresp Hbody Hm Ht.
  rewrite (call_on_failure _ _ _ _ Hnet). unfold settled. cbn [fst].
  unfold handleApiError. rewrite Hresp. simpl. rewrite Hbody. simpl.
  rewrite Hm. simpl. by rewrite Ht.
Qed.

Lemma server_message_is_raised_witness :
  settled (call (Login "alice" "wrong") (failing badCredentials) fresh_install)
  = Rejected (Error "Invalid username or password").
Proof.
  apply (server_message_is_raised (Login "alice" "wrong") (failing badCredentials)
           fresh_install badCredentials
           (AxiosResponse.mk 401
              (Some (envelope "error" None (Some "Invalid username or password")
                       JsNull)))
           (envelope "error" None (Some "Invalid username or password") JsNull)
           "Invalid username or password"); reflexivity.
Defined.

(** Whatever an operation raises is a plain error with a non-empty
    message: the axios flag, the error code and the response (with its
    HTTP status) never reach the caller. *)
Theorem raised_errors_are_plain op net w e :
  settled (call op net w) = Rejected e →
  e = Error (JsError.message e) ∧ truthy (JsError.message e) = true.
Proof.
  intros He.
  assert (e = Error INVALID_LOGIN ∨ ∃ e0, e = handleApiError e0) as [->| [e0 ->]].
  { destruct (is_login op) eqn:Hop.
    - destruct op; try discriminate Hop. simpl in He. rewrite login_run in He.
      unfold settled in He.
      destruct (net _) as [r|e0]; cbn [login_outcome] in He.
      + destruct (ApiResponse.token _) as [t|]; [|left; simpl in He; congruence].
        destruct (_ && _); simpl in He; [discriminate|left; congruence].
      + right. exists e0. simpl in He. congruence.
    - rewrite call_run in He by done. unfold settled in He. cbn [fst] in He.
      destruct (net _) as [r|e0]; [discriminate|].
      right. exists e0. simpl in He. congruence. }
  - split; reflexivity.
  - split; [reflexivity|apply handleApiError_truthy].
Qed.

Lemma raised_errors_are_plain_witness :
  Error "Invalid username or password"
  = Error (JsError.message (Error "Invalid username or password"))
  ∧ truthy (JsError.message (Error "Invalid username or password")) = true.
Proof.
  apply (raised_errors_are_plain (Login "alice" "wrong") (failing badCredentials)
           fresh_install (Error "Invalid username or password")).
  reflexivity.
Defined.

(** ** The request interceptor *)

(** In any state whatever, stored token or not: an operation sends exactly
    one request; the interceptor leaves method, address, timeout, body and
    every header other than [Authorization] as the operation set them; and
    [Authorization] is [Bearer t] exactly when a non-empty [t] is stored.
    A stored empty string counts as no token. *)
Theorem interceptor_only_sets_authorization op net w :
  ∃ req,
    sent (call op net w) = [req]
    ∧ AxiosRequestConfig.method req = AxiosRequestConfig.method (config_of op)
    ∧ AxiosRequestConfig.baseURL req = BASE_URL
    ∧ AxiosRequestConfig.url req = AxiosRequestConfig.url (config_of op)
    ∧ AxiosRequestConfig.timeout req = (if is_login op then 15000 else 20000)
    ∧ AxiosRequestConfig.data req = AxiosRequestConfig.data (config_of op)
    ∧ (∀ k, k ≠ "Authorization" →
            AxiosRequestConfig.headers req !! k
            = AxiosRequestConfig.headers (config_of op) !! k)
    ∧ AxiosRequestConfig.headers req !! "Authorization"
      = match asyncStorage w !! "token" with
        | Some t => if truthy t then Some ("Bearer " +:+ t) else None
        | None => None
        end.
Proof.
  exists (wire op w). split; [apply sent_call|].
  rewrite wire_method, wire_url, wire_data, wire_authorization.
  repeat split.
  - unfold wire, outgoing.
    destruct (asyncStorage w !! "token") as [t|]; [destruct (truthy t)|];
      by destruct op.
  - unfold wire, outgoing.
    destruct (asyncStorage w !! "token") as [t|]; [destruct (truthy t)|];
      by destruct op.
  - intros k Hk. unfold wire, outgoing.
    destruct (asyncStorage w !! "token") as [t|]; [destruct (truthy t)|]; try done.
    unfold withAuthorization. cbn [AxiosRequestConfig.headers].
    by rewrite lookup_insert_ne.
Qed.

(** ** Composing operations on the store *)

Lemma step_other_keys a net w k :
  k ≠ "token" →
  asyncStorage (step a net w) !! k = asyncStorage w !! k.
Proof.
  intros Hk. destruct a as [op|]; cbn [step].
  - destruct (is_login op) eqn:Hop.
    + destruct op; try discriminate Hop. cbn [call]. rewrite login_run.
      unfold world_after. cbn [fst snd].
      destruct (net _) as [r|e]; cbn [login_outcome]; [|done].
      destruct (ApiResponse.token _) as [t|]; [|done].
      destruct (_ && _); [|done]. simpl. by rewrite lookup_insert_ne.
    + by rewrite call_run.
  - rewrite logout_run. simpl. by rewrite lookup_delete_ne.
Qed.

(** No action reads or writes any key but ["token"]: what callers keep
    under other keys (the role, say) survives every operation, [logout]
    included. *)
Theorem other_keys_are_untouched a net w k :
  k ≠ "token" →
  asyncStorage (step a net w) !! k = asyncStorage w !! k.
Proof. apply step_other_keys. Qed.

Lemma other_keys_are_untouched_witness :
  asyncStorage
    (step Logout (failing networkError)
       (mkWorld {[ "token" := "T1"; "userRole" := "student" ]} None))
    !! "userRole"
  = asyncStorage (mkWorld {[ "token" := "T1"; "userRole" := "student" ]} None)
      !! "userRole".
Proof.
  apply (other_keys_are_untouched Logout (failing networkError)
           (mkWorld {[ "token" := "T1"; "userRole" := "student" ]} None)
           "userRole").
  discriminate.
Defined.

(** [logout] twice is [logout] once; and [logout] after a [login], whether
    that login succeeded or not, leaves the store as [logout] alone would:
    nothing of the session stays behind. *)
Theorem logout_is_idempotent_and_undoes_login net0 net1 net2 username password w :
  step Logout net2 (step Logout net1 w) = step Logout net1 w
  ∧ step Logout net2 (step (Invoke (Login username password)) net0 w)
    = step Logout net1 w.
Proof.
  split.
  - unfold step. rewrite !logout_run. unfold world_after. cbn [fst snd].
    f_equal. cbn [asyncStorage]. apply delete_delete_eq.
  - unfold step. cbn [call]. rewrite !logout_run, login_run.
    unfold world_after. cbn [fst snd]. f_equal.
    destruct (net0 _) as [r|e]; cbn [login_outcome]; [|done].
    destruct (ApiResponse.token _) as [t|]; [|done].
    destruct (_ && _); [|done]. cbn [snd asyncStorage]. apply delete_insert_eq.
Qed.

(** A second successful login replaces the token of the first: the store
    is what the second login alone would have left, and holds the second
    token. *)
Theorem relogin_replaces_token net1 net2 u1 p1 u2 p2 w r1 r2 t1 t2 :
  net1 (wire (Login u1 p1) w) = Fulfilled r1 →
  ApiResponse.status (AxiosResponse.data r1) = "success" →
  ApiResponse.token (AxiosResponse.data r1) = Some t1 → truthy t1 = true →
  net2 (wire (Login u2 p2) (step (Invoke (Login u1 p1)) net1 w)) = Fulfilled r2 →
  ApiResponse.status (AxiosResponse.data r2) = "success" →
  ApiResponse.token (AxiosResponse.data r2) = Some t2 → truthy t2 = true →
  asyncStorage (step (Invoke (Login u2 p2)) net2 (step (Invoke (Login u1 p1)) net1 w))
  = <["token" := t2]> (asyncStorage w)
  ∧ AxiosRequestConfig.headers
      (wire (Login u2 p2) (step (Invoke (Login u1 p1)) net1 w)) !! "Authorization"
    = Some ("Bearer " +:+ t1).
Proof.
  intros H1 Hs1 Ht1 Hn1 H2 Hs2 Ht2 Hn2.
  assert (step (Invoke (Login u1 p1)) net1 w
          = {| asyncStorage := <["token" := t1]> (asyncStorage w);
               currentUser := currentUser w |}) as Hw1.
  { unfold step. cbn [call]. by rewrite (login_success _ _ _ _ _ _ H1 Hs1 Ht1 Hn1). }
  split.
  - unfold step at 1. cbn [call].
    rewrite (login_success _ _ _ _ _ _ H2 Hs2 Ht2 Hn2).
    unfold world_after. cbn [fst snd asyncStorage].
    rewrite Hw1. cbn [asyncStorage]. apply insert_insert_eq.
  - rewrite wire_authorization, Hw1. cbn [asyncStorage].
    by rewrite lookup_insert_eq, Hn1.
Qed.

Lemma relogin_replaces_token_witness :
  asyncStorage
    (step (Invoke (Login "bob" "Secret2!"))
       (answering (envelope "success" (Some "T2") None JsNull)) logged_in)
  = <["token" := "T2"]> (asyncStorage fresh_install)
  ∧ AxiosRequestConfig.headers (wire (Login "bob" "Secret2!") logged_in)
      !! "Authorization"
    = Some "Bearer T1".
Proof.
  apply (relogin_replaces_token (answering token_envelope)
           (answering (envelope "success" (Some "T2") None JsNull))
           "alice" "Secret1!" "bob" "Secret2!" fresh_install
           (AxiosResponse.mk 200 token_envelope)
           (AxiosResponse.mk 200 (envelope "success" (Some "T2") None JsNull))
           "T1" "T2"); reflexivity.
Defined.

(** * The login and sign-up screen *)

(** ** The form *)

Lemma all_filled_first_missing fields formData :
  all_filled fields formData
  = match first_missing fields formData with Some _ => false | None => true end.
Proof.
  induction fields as [|field more IH]; [reflexivity|]. simpl.
  destruct (truthy (form_field field formData)); simpl; [apply IH|reflexivity].
Qed.

(** [validateForm] rejects exactly when it shows an alert. *)
Lemma validateForm_alert_None isLogin formData :
  validateForm isLogin formData = true ↔ validateForm_alert isLogin formData = None.
Proof.
  unfold validateForm, validateForm_alert. destruct isLogin.
  - destruct (_ || _); split; congruence.
  - fold (requiredFields formData). rewrite all_filled_first_missing.
    destruct (first_missing _ _); simpl; [split; congruence|].
    destruct (emailRegex_test _); simpl; [|split; congruence].
    destruct (validatePassword _); simpl; split; congruence.
Qed.

(** Typing into a field of the form sets that field and no other. *)
Theorem handleChange_sets_one_field name value formData :
  name ∈ field_names →
  form_field name (handleChange name value formData) = value
  ∧ ∀ other, other ≠ name →
      form_field other (handleChange name value formData)
      = form_field other formData.
Proof.
  intros Hname. split.
  - unfold field_names in Hname.
    repeat (apply elem_of_cons in Hname as [->|Hname]; [reflexivity|]).
    by apply elem_of_nil in Hname.
  - intros other Hother. unfold form_field, handleChange.
    repeat case_bool_decide; simpl; congruence.
Qed.

Lemma handleChange_sets_one_field_witness :
  form_field "year" (handleChange "year" "2" form_without_year) = "2"
  ∧ ∀ other, other ≠ "year" →
      form_field other (handleChange "year" "2" form_without_year)
      = form_field other form_without_year.
Proof.
  apply (handleChange_sets_one_field "year" "2" form_without_year).
  unfold field_names. set_solver.
Defined.

(** ** Which addresses the form accepts *)












(** ** Submitting the form *)

Ltac run_handler :=
  unfold finally, catching, await, emit, raise, mbind, handler_bind, mret,
    handler_ret, navigateToAppropriateDashboard, storeToken;
  cbn beta iota.

(** A form that fails the check goes nowhere: one alert, no request, the
    store untouched. *)
Theorem handleSubmit_invalid_form_sends_nothing isLogin formData net w :
  validateForm isLogin formData = false →
  ∃ title message,
    handleSubmit isLogin formData net w
    = (Fulfilled tt, w, [], [Alert title message]).
Proof.
  intros Hbad. unfold handleSubmit.
  destruct (validateForm_alert isLogin formData) as [alert|] eqn:Halert.
  - assert (∃ title message, alert = Alert title message) as (t & m & ->).
    { unfold validateForm_alert in Halert.
      repeat match type of Halert with
             | context [if ?b then _ else _] => destruct b
             | context [match ?o with Some _ => _ | None => _ end] => destruct o
             end; inversion Halert; eauto. }
    by exists t, m.
  - apply validateForm_alert_None in Halert. congruence.
Qed.

(** When [login] rejects, for whatever reason (no connection, refused
    credentials, an invalid answer), the screen shows the same
    "Connection Error" alert; the error's message is not shown, the store
    is untouched and the handler itself never rejects. *)
Theorem handleSubmit_login_failure_says_connection_error formData net w e :
  validateForm true formData = true →
  settled (login (form_username formData) (form_password formData) net w)
  = Rejected e →
  handleSubmit true formData net w
  = (Fulfilled tt, w,
     [wire (Login (form_username formData) (form_password formData)) w],
     [SetIsLoading true;
      Alert "Connection Error" "Unable to connect to the server";
      SetIsLoading false]).
Proof.
  intros Hok%validateForm_alert_None Hlogin. unfold handleSubmit. rewrite Hok.
  rewrite login_run in Hlogin. unfold settled in Hlogin. cbn [fst] in Hlogin.
  run_handler. rewrite login_run.
  destruct (login_outcome w _) as [[env|e'] w1] eqn:Hout; [discriminate|].
  assert (w1 = w) as ->.
  { unfold login_outcome in Hout. destruct (net _) as [r|e0].
    - destruct (ApiResponse.token _); [destruct (_ && _)|]; congruence.
    - congruence. }
  reflexivity.
Qed.

(** What the screen navigates to for a role. *)
Lemma navigate_run role :
  navigateToAppropriateDashboard role
  = λ net w,
      (Fulfilled tt, w, [],
       if bool_decide (role = "student") then [NavigationReset "StudentDashboard"]
       else if bool_decide (role = "faculty")
       then [NavigationReset "FacultyDashboard"]
       else []).
Proof.
  unfold navigateToAppropriateDashboard. by repeat case_bool_decide.
Qed.

(** After a successful login the store holds the token and, under
    ["userRole"], the role chosen in the form; the screen goes to the
    dashboard of that role (the server's answer has no say in it), and
    nowhere when the role is neither ["student"] nor ["faculty"]. *)
Theorem handleSubmit_login_success formData net w r t :
  validateForm true formData = true →
  net (wire (Login (form_username formData) (form_password formData)) w)
  = Fulfilled r →
  ApiResponse.status (AxiosResponse.data r) = "success" →
  ApiResponse.token (AxiosResponse.data r) = Some t →
  truthy t = true →
  handleSubmit true formData net w
  = (Fulfilled tt,
     {| asyncStorage :=
          <["userRole" := form_role formData]> (<["token" := t]> (asyncStorage w));
        currentUser := currentUser w |},
     [wire (Login (form_username formData) (form_password formData)) w],
     [SetIsLoading true]
     ++ (if bool_decide (form_role formData = "student")
         then [NavigationReset "StudentDashboard"]
         else if bool_decide (form_role formData = "faculty")
         then [NavigationReset "FacultyDashboard"]
         else [])
     ++ [SetIsLoading false]).
Proof.
  intros Hok%validateForm_alert_None Hnet Hstatus Htoken Ht.
  unfold handleSubmit. rewrite Hok.
  rewrite navigate_run.
  unfold finally, catching, await, emit, mbind, handler_bind, storeToken.
  rewrite (login_success _ _ _ _ _ _ Hnet Hstatus Htoken Ht).
  rewrite Hstatus, Htoken. cbn beta iota. rewrite bool_decide_eq_true_2 by done.
  unfold await, AsyncStorage_setItem. cbn beta iota.
  cbn [asyncStorage currentUser app].
  rewrite insert_insert_eq. reflexivity.
Qed.

(** Signing up with a form that passes the check sends one request,
    [POST /shared/register] with the payload built from the form, and
    leaves the store untouched.  The user is told of success only when
    the answer's status is ["success"]; an answer with any other status
    produces no message at all, and any failure the "Connection Error"
    alert. *)
Theorem handleSubmit_signup formData net w :
  validateForm false formData = true →
  ∃ req,
    AxiosRequestConfig.method req = POST
    ∧ AxiosRequestConfig.url req = "/shared/register"
    ∧ AxiosRequestConfig.data req = Some (signupPayload formData)
    ∧ handleSubmit false formData net w
      = (Fulfilled tt, w, [req],
         [SetIsLoading true]
         ++ match net req with
            | Fulfilled r =>
                if bool_decide (ApiResponse.status (AxiosResponse.data r) = "success")
                then [Alert "Success"
                        "Registration successful! Please login with your credentials."]
                else []
            | Rejected _ =>
                [Alert "Connection Error" "Unable to connect to the server"]
            end
         ++ [SetIsLoading false]).
Proof.
  intros Hok%validateForm_alert_None.
  exists (wire (Register (signupPayload formData)) w).
  rewrite wire_method, wire_url, wire_data. do 3 (split; [reflexivity|]).
  unfold handleSubmit. rewrite Hok.
  unfold finally, catching, await, emit, mbind, handler_bind.
  pose proof (call_run (Register (signupPayload formData)) net w eq_refl) as Hrun.
  cbn [call] in Hrun. rewrite Hrun.
  destruct (net _) as [r|e]; cbn [normalized]; cbn beta iota.
  - by case_bool_decide.
  - reflexivity.
Qed.

(** ** Restoring a session *)

Lemma handleSubmit_other_keys isLogin formData net w k :
  k ≠ "token" → k ≠ "userRole" →
  asyncStorage (world_left (handleSubmit isLogin formData net w)) !! k
  = asyncStorage w !! k.
Proof.
  intros Htoken Hrole. unfold handleSubmit.
  destruct (validateForm_alert isLogin formData) as [alert|]; [reflexivity|].
  rewrite navigate_run.
  unfold finally, catching, await, emit, mbind, handler_bind, storeToken.
  destruct isLogin.
  - rewrite login_run.
    destruct (net _) as [r|e]; cbn [login_outcome]; [|reflexivity].
    destruct (ApiResponse.token (AxiosResponse.data r)) as [t|] eqn:Ht;
      [|reflexivity].
    destruct (bool_decide _ && truthy t) eqn:Hgood; [|reflexivity].
    cbn beta iota. apply andb_true_iff in Hgood as [Hstatus _].
    rewrite Hstatus, Ht. unfold await, AsyncStorage_setItem. cbn beta iota.
    unfold world_left. cbn [fst snd asyncStorage].
    by rewrite !lookup_insert_ne.
  - pose proof (call_run (Register (signupPayload formData)) net w eq_refl) as Hrun.
    cbn [call] in Hrun. rewrite Hrun.
    destruct (net _) as [r|e]; cbn [normalized]; cbn beta iota; [|reflexivity].
    by case_bool_decide.
Qed.

(** The session check reads the store and nothing else. *)
Lemma checkExistingSession_world JSON_parse net w :
  world_left (checkExistingSession JSON_parse net w) = w
  ∧ requests (checkExistingSession JSON_parse net w) = [].
Proof.
  unfold checkExistingSession.
  unfold catching, await, AsyncStorage_getItem, raise, mbind, handler_bind,
    mret, handler_ret. cbn beta iota.
  destruct (asyncStorage w !! "token") as [t|]; [|done].
  destruct (asyncStorage w !! "user") as [u|]; [|done].
  destruct (truthy t && truthy u); [|done].
  destruct (JSON_parse u) as [e|user]; [done|].
  destruct user as [| | | |s| |fields]; try done.
  destruct (js_prop "role" (JsObject fields)) as [| | | |role| |]; try done.
  rewrite navigate_run. by repeat case_bool_decide.
Qed.

Lemma AppReachable_no_user w : AppReachable w → asyncStorage w !! "user" = None.
Proof.
  induction 1 as [kv _ Huser|a net w _ IH]; [done|].
  destruct a as [a|isLogin formData|JSON_parse]; cbn [app_step].
  - by rewrite step_other_keys.
  - by rewrite handleSubmit_other_keys.
  - by rewrite (proj1 (checkExistingSession_world JSON_parse net w)).
Qed.

(** No session is ever restored: nothing in the application writes the
    key ["user"] that [checkExistingSession] requires beside the token, so
    in every state the application can reach, logged in or not, the check
    navigates nowhere, whatever the parser does. *)
Theorem checkExistingSession_never_navigates JSON_parse net w :
  AppReachable w →
  checkExistingSession JSON_parse net w = (Fulfilled tt, w, [], []).
Proof.
  intros Huser%AppReachable_no_user. unfold checkExistingSession.
  unfold catching, await, AsyncStorage_getItem, mbind, handler_bind. cbn beta iota.
  rewrite Huser. by destruct (asyncStorage w !! "token").
Qed.

Lemma checkExistingSession_never_navigates_witness :
  checkExistingSession (λ _, inr (JsObject [("role", JsString "student")]))
    (failing networkError)
    (app_step (Submit true
                 (mkFormData "" "" "student" "" "Secret1!" "" "" "" "alice"))
       (answering token_envelope) fresh_install)
  = (Fulfilled tt,
     app_step (Submit true
                 (mkFormData "" "" "student" "" "Secret1!" "" "" "" "alice"))
       (answering token_envelope) fresh_install,
     [], []).
Proof.
  apply (checkExistingSession_never_navigates
           (λ _, inr (JsObject [("role", JsString "student")]))
           (failing networkError)).
  apply AppReachable_step, AppReachable_new; reflexivity.
Defined.

(** With both keys present the check does navigate: it is the missing
    write, not the check, that keeps sessions from being restored. *)
Example checkExistingSession_with_user :
  events
    (checkExistingSession (λ _, inr (JsObject [("role", JsString "faculty")]))
       (failing networkError)
       (mkWorld {[ "token" := "T1"; "user" := "{}" ]} None))
  = [NavigationReset "FacultyDashboard"].
Proof. reflexivity. Qed.

(** ** Examples on the screen *)

Lemma handleSubmit_invalid_form_sends_nothing_witness :
  ∃ title message,
    handleSubmit false form_without_year (answering profile_envelope) fresh_install
    = (Fulfilled tt, fresh_install, [], [Alert title message]).
Proof.
  apply (handleSubmit_invalid_form_sends_nothing false form_without_year
           (answering profile_envelope) fresh_install).
  reflexivity.
Defined.

Lemma handleSubmit_login_failure_says_connection_error_witness :
  handleSubmit true login_form (failing badCredentials) fresh_install
  = (Fulfilled tt, fresh_install,
     [wire (Login (form_username login_form) (form_password login_form))
        fresh_install],
     [SetIsLoading true;
      Alert "Connection Error" "Unable to connect to the server";
      SetIsLoading false]).
Proof.
  apply (handleSubmit_login_failure_says_connection_error login_form
           (failing badCredentials) fresh_install
           (Error "Invalid username or password")); reflexivity.
Defined.

Lemma handleSubmit_login_success_witness :
  handleSubmit true login_form (answering token_envelope) fresh_install
  = (Fulfilled tt,
     {| asyncStorage :=
          <["userRole" := form_role login_form]>
            (<["token" := "T1"]> (asyncStorage fresh_install));
        currentUser := currentUser fresh_install |},
     [wire (Login (form_username login_form) (form_password login_form))
        fresh_install],
     [SetIsLoading true]
     ++ (if bool_decide (form_role login_form = "student")
         then [NavigationReset "StudentDashboard"]
         else if bool_decide (form_role login_form = "faculty")
         then [NavigationReset "FacultyDashboard"]
         else [])
     ++ [SetIsLoading false]).
Proof.
  apply (handleSubmit_login_success login_form (answering token_envelope)
           fresh_install (AxiosResponse.mk 200 token_envelope) "T1"); reflexivity.
Defined.

Lemma handleSubmit_signup_witness :
  ∃ req,
    AxiosRequestConfig.method req = POST
    ∧ AxiosRequestConfig.url req = "/shared/register"
    ∧ AxiosRequestConfig.data req = Some (signupPayload student_form)
    ∧ handleSubmit false student_form (answering refusal_envelope) fresh_install
      = (Fulfilled tt, fresh_install, [req],
         [SetIsLoading true]
         ++ match answering refusal_envelope req with
            | Fulfilled r =>
                if bool_decide (ApiResponse.status (AxiosResponse.data r) = "success")
                then [Alert "Success"
                        "Registration successful! Please login with your credentials."]
                else []
            | Rejected _ =>
                [Alert "Connection Error" "Unable to connect to the server"]
            end
         ++ [SetIsLoading false]).
Proof.
  apply (handleSubmit_signup student_form (answering refusal_envelope)
           fresh_install).
  reflexivity.
Defined.


(** * The student dashboard *)

(** ** Text search *)

Lemma startsWith_spec s prefix :
  startsWith s prefix = true ↔ ∃ rest, s = prefix +:+ rest.
Proof.
  revert s. induction prefix as [|p prefix IH]; intros s.
  - destruct s; simpl; (split; [intros _; eexists; reflexivity|done]).
  - destruct s as [|c s]; simpl.
    + split; [discriminate|]. intros [rest Hrest]. discriminate Hrest.
    + rewrite andb_true_iff, bool_decide_eq_true, IH. split.
      * intros [-> [rest ->]]. eauto.
      * intros [rest Hrest]. injection Hrest as -> ->. eauto.
Qed.

Lemma includes_shape s needle :
  includes s needle = true ↔ ∃ before after, s = before +:+ needle +:+ after.
Proof.
  split.
  - induction s as [|c s IH]; cbn [includes].
    + rewrite orb_false_r. intros [rest Hrest]%startsWith_spec.
      exists "", rest. exact Hrest.
    + intros [[rest Hrest]%startsWith_spec|(before & after & ->)%IH]%orb_true_iff.
      * exists "", rest. exact Hrest.
      * by exists (String c before), after.
  - intros (before & after & ->).
    induction before as [|c before IH].
    + assert (startsWith (needle +:+ after) needle = true) as Hstart
        by (apply startsWith_spec; eauto).
      change ("" +:+ needle +:+ after) with (needle +:+ after).
      destruct (needle +:+ after); cbn [includes]; by rewrite Hstart.
    + change (String c before +:+ needle +:+ after)
        with (String c (before +:+ needle +:+ after)).
      cbn [includes]. by rewrite IH, orb_true_r.
Qed.

(** [includes] finds the needle exactly when the text contains it. *)
Theorem includes_spec s needle :
  includes s needle = true ↔ ∃ before after, s = before +:+ needle +:+ after.
Proof. apply includes_shape. Qed.

(** ** The hook [useApiCall] *)

(** However the loader ends, [fetchData] itself fulfils and leaves
    [loading] and [refreshing] false.  When the loader fulfils, [data] is
    its result and [error] is cleared; when it rejects, [error] is the
    error's message and [data] keeps what it held before. *)
Theorem fetchData_settles apiFunction net w h :
  let run := StudentDashboard.fetchData apiFunction net w in
  let h' := StudentDashboard.stateAfter h (events run) in
  outcome run = Fulfilled tt
  ∧ StudentDashboard.loading h' = false
  ∧ StudentDashboard.refreshing h' = false
  ∧ match settled (apiFunction net w) with
    | Fulfilled v =>
        StudentDashboard.data h' = Some v ∧ StudentDashboard.error h' = None
    | Rejected e =>
        StudentDashboard.data h' = StudentDashboard.data h
        ∧ StudentDashboard.error h' = Some (JsError.message e)
    end.
Proof.
  unfold StudentDashboard.fetchData, finally, catching, await, emit, mbind, handler_bind.
  unfold settled. destruct (apiFunction net w) as [[[v|e] w1] out1]; by cbn.
Qed.

(** ** The loaders *)

(** The timetable loader looks at the [timetable] field only, not at the
    status: any truthy value is handed on as it is, an empty list
    included; a missing, null, false, zero or empty-string value makes it
    fail with "Invalid API response structure".  A transport failure
    comes out as the client raised it. *)
Theorem timetableLoader_spec net w :
  settled (StudentDashboard.timetableLoader net w)
  = match net (wire GetTimetable w) with
    | Fulfilled r =>
        match ApiResponse.timetable (AxiosResponse.data r) with
        | Some (JsArray items) => Fulfilled (JsArray items)
        | Some (JsObject fields) => Fulfilled (JsObject fields)
        | Some v =>
            if js_truthy v then Fulfilled v
            else Rejected (Error "Invalid API response structure")
        | None => Rejected (Error "Invalid API response structure")
        end
    | Rejected e => Rejected (handleApiError e)
    end.
Proof.
  unfold StudentDashboard.timetableLoader, try_catch, mbind, async_bind, throw.
  pose proof (call_run GetTimetable net w eq_refl) as Hrun.
  cbn [call] in Hrun. rewrite Hrun.
  destruct (net _) as [r|e]; cbn [normalized]; [|reflexivity].
  destruct (ApiResponse.timetable (AxiosResponse.data r)) as [v|]; [|reflexivity].
  destruct v as [| |b|n|s|items|fields]; try reflexivity.
  - by destruct b.
  - simpl. by destruct (Z.eqb n 0).
  - simpl. by destruct (truthy s).
Qed.

(** The overview loader never fails: it always sends its two requests
    (attendance analytics, then the profile, whose answer it does not
    use) and, when either of them fails, yields zeros for all three
    figures. *)
Theorem overviewLoader_never_fails net w :
  ∃ v,
    StudentDashboard.overviewLoader net w
    = (Fulfilled v, w, [wire GetAttendanceAnalytics w; wire GetStudentProfile w])
    ∧ ((∀ r, net (wire GetAttendanceAnalytics w) ≠ Fulfilled r)
       ∨ (∀ r, net (wire GetStudentProfile w) ≠ Fulfilled r) →
       v = StudentDashboard.dashboardData (JsNumber 0) (JsNumber 0) (JsNumber 0)).
Proof.
  unfold StudentDashboard.overviewLoader, try_catch, promise_all2.
  unfold mbind at 1. unfold async_bind.
  pose proof (call_run GetAttendanceAnalytics net w eq_refl) as Ha.
  pose proof (call_run GetStudentProfile net w eq_refl) as Hp.
  cbn [call] in Ha, Hp. rewrite Ha, Hp.
  destruct (net (wire GetAttendanceAnalytics w)) as [ra|ea],
    (net (wire GetStudentProfile w)) as [rp|ep]; cbn [normalized];
    eexists; (split; [reflexivity|]); intros [H|H]; try reflexivity;
    by edestruct H.
Qed.

(** When both answers arrive, each figure is the field of that name in
    the analytics [data], and zero when the field is missing or falsy
    ([0], [null], the empty string) or [data] is no object. *)
Theorem overviewLoader_reads_analytics net w ra rp :
  net (wire GetAttendanceAnalytics w) = Fulfilled ra →
  net (wire GetStudentProfile w) = Fulfilled rp →
  settled (StudentDashboard.overviewLoader net w)
  = Fulfilled
      (StudentDashboard.dashboardData
         (js_or (js_prop "overallAttendance" (ApiResponse.data (AxiosResponse.data ra)))
            (JsNumber 0))
         (js_or (js_prop "upcomingClasses" (ApiResponse.data (AxiosResponse.data ra)))
            (JsNumber 0))
         (js_or (js_prop "pendingCorrections"
                   (ApiResponse.data (AxiosResponse.data ra)))
            (JsNumber 0))).
Proof.
  intros Hna Hnp.
  unfold StudentDashboard.overviewLoader, try_catch, promise_all2.
  unfold mbind at 1. unfold async_bind.
  pose proof (call_run GetAttendanceAnalytics net w eq_refl) as Ha.
  pose proof (call_run GetStudentProfile net w eq_refl) as Hp.
  cbn [call] in Ha, Hp. rewrite Ha, Hp, Hna, Hnp. cbn [normalized].
  unfold settled. cbn [fst snd mret async_ret].
  by destruct (ApiResponse.data (AxiosResponse.data ra)).
Qed.

(** ** Marking attendance *)

(** Checking in sends the fixed network and block names, not something
    read from the device; and whenever the transport succeeds the user is
    told "Attendance marked successfully" and the data are refreshed,
    whatever the status in the answer: a refusal that arrives with a 2xx
    status is reported as a success. *)
Theorem handleMarkAttendance_checkin_reports_success net w r :
  net (wire (MarkAttendance
               (JsObject [("wifi_name", JsString "Campus_WiFi");
                          ("block_name", JsString "Main_Block")])) w)
  = Fulfilled r →
  StudentDashboard.handleMarkAttendance StudentDashboard.checkin net w
  = (Fulfilled tt, w,
     [wire (MarkAttendance
              (JsObject [("wifi_name", JsString "Campus_WiFi");
                         ("block_name", JsString "Main_Block")])) w],
     [SetMarkingAttendance true;
      Alert "Success" "Attendance marked successfully";
      OnRefresh;
      SetMarkingAttendance false;
      SetAttendanceModalVisible false]).
Proof.
  intros Hnet.
  unfold StudentDashboard.handleMarkAttendance, finally, catching, await, emit,
    mbind, handler_bind.
  pose proof (call_run (MarkAttendance
                          (JsObject [("wifi_name", JsString "Campus_WiFi");
                                     ("block_name", JsString "Main_Block")]))
                net w eq_refl) as Hrun.
  cbn [call] in Hrun. rewrite Hrun, Hnet. reflexivity.
Qed.

(** When checking in or out fails, the user sees one "Error" alert with
    the raised message, or the time-format text when the message contains
    the database's type error; nothing is refreshed, and the two flags are
    reset all the same. *)
Theorem handleMarkAttendance_failure action net w e0 :
  let op := match action with
            | StudentDashboard.checkin =>
                MarkAttendance
                  (JsObject [("wifi_name", JsString "Campus_WiFi");
                             ("block_name", JsString "Main_Block")])
            | StudentDashboard.checkout => Checkout
            end in
  net (wire op w) = Rejected e0 →
  StudentDashboard.handleMarkAttendance action net w
  = (Fulfilled tt, w, [wire op w],
     [SetMarkingAttendance true;
      Alert "Error"
        (if includes (JsError.message (handleApiError e0))
              StudentDashboard.TIME_FORMAT_SIGNATURE
         then "There was an issue with the time format. Please try again later."
         else JsError.message (handleApiError e0));
      SetMarkingAttendance false;
      SetAttendanceModalVisible false]).
Proof.
  intros op Hnet.
  unfold StudentDashboard.handleMarkAttendance, finally, catching, await, emit,
    mbind, handler_bind, apiService_checkout.
  pose proof (call_run op net w) as Hrun.
  destruct action; subst op; cbn [call] in Hrun; rewrite Hrun, Hnet by done;
    cbn [normalized]; cbn beta iota;
    by destruct (includes _ _).
Qed.

(** ** Asking for a correction *)

(** The request carries the two fields as given.  A 2xx answer of any
    status is reported as "Correction request submitted"; a failure is
    reported with its message, or with the text about the attendance id
    when the message contains "foreign key constraint". *)
Theorem handleRequestCorrection_spec attendance_id reason net w :
  let body := JsObject [("attendance_id", JsString attendance_id);
                        ("reason", JsString reason)] in
  StudentDashboard.handleRequestCorrection attendance_id reason net w
  = (Fulfilled tt, w, [wire (RequestAttendanceCorrection body) w],
     match net (wire (RequestAttendanceCorrection body) w) with
     | Fulfilled _ => [Alert "Success" "Correction request submitted"; OnRefresh]
     | Rejected e0 =>
         [Alert "Error"
            (if includes (JsError.message (handleApiError e0)) "foreign key constraint"
             then "Attendance ID does not match any existing record."
             else JsError.message (handleApiError e0))]
     end).
Proof.
  intros body.
  unfold StudentDashboard.handleRequestCorrection, catching, await, emit,
    mbind, handler_bind.
  pose proof (call_run (RequestAttendanceCorrection body) net w eq_refl) as Hrun.
  cbn [call] in Hrun. fold body. rewrite Hrun.
  destruct (net _) as [r|e0]; cbn [normalized]; cbn beta iota; [reflexivity|].
  by destruct (includes _ _).
Qed.

(** ** Updating the profile *)

(** An update answered with a status other than ["success"] produces no
    message at all.  An update answered with ["success"] is announced and
    followed by a second request, a fresh profile fetch; when that fetch
    fails, the user sees the success alert and then an error alert, and
    nothing is refreshed. *)
Theorem handleUpdateProfile_spec updatedData net w r :
  net (wire (UpdateStudentProfile updatedData) w) = Fulfilled r →
  StudentDashboard.handleUpdateProfile updatedData net w
  = if bool_decide (ApiResponse.status (AxiosResponse.data r) = "success") then
      (Fulfilled tt, w,
       [wire (UpdateStudentProfile updatedData) w; wire GetStudentProfile w],
       Alert "Success" "Profile updated successfully"
       :: match net (wire GetStudentProfile w) with
          | Fulfilled _ => [OnRefresh]
          | Rejected e0 => [Alert "Error" (JsError.message (handleApiError e0))]
          end)
    else (Fulfilled tt, w, [wire (UpdateStudentProfile updatedData) w], []).
Proof.
  intros Hnet.
  unfold StudentDashboard.handleUpdateProfile, catching, await, emit,
    mbind, handler_bind.
  pose proof (call_run (UpdateStudentProfile updatedData) net w eq_refl) as Hrun.
  pose proof (call_run GetStudentProfile net w eq_refl) as Hget.
  cbn [call] in Hrun, Hget. rewrite Hrun, Hnet. cbn [normalized]. cbn beta iota.
  case_bool_decide; [|reflexivity].
  cbn beta iota. rewrite Hget.
  by destruct (net (wire GetStudentProfile w)).
Qed.

(** * The faculty dashboard *)

(** Loading the student analytics never fails and always ends with
    [loading] off.  Any failure, a message from the server included, is
    shown as the fixed text about the connection; a 2xx answer is taken by
    its [data] alone, whatever its status: truthy data are displayed and
    the error cleared, falsy data give "Invalid data received from
    server". *)
Theorem fetchAnalytics_spec net w :
  FacultyDashboard.fetchAnalytics net w
  = (Fulfilled tt, w, [wire GetStudentAnalytics w],
     [SetLoading true]
     ++ match net (wire GetStudentAnalytics w) with
        | Fulfilled r =>
            if js_truthy (ApiResponse.data (AxiosResponse.data r))
            then [SetStudentAnalytics (ApiResponse.data (AxiosResponse.data r));
                  SetError None]
            else [SetError (Some "Invalid data received from server")]
        | Rejected _ =>
            [SetError
               (Some "Unable to fetch analytics data. Please check your connection.")]
        end
     ++ [SetLoading false]).
Proof.
  unfold FacultyDashboard.fetchAnalytics, finally, catching, await, emit,
    mbind, handler_bind.
  pose proof (call_run GetStudentAnalytics net w eq_refl) as Hrun.
  cbn [call] in Hrun. rewrite Hrun.
  destruct (net _) as [r|e0]; cbn [normalized]; cbn beta iota; [|reflexivity].
  by destruct (js_truthy _).
Qed.

(** The faculty timetable is read from [data.data]: when the envelope's
    [data] is itself the list of entries, the screen is given an empty
    list, whatever the entries; it is given the nested list only when
    [data] is an object with a truthy [data] field. *)
Theorem fetchTimetable_reads_nested_data net w r :
  net (wire GetTimetableEntries w) = Fulfilled r →
  events (FacultyDashboard.fetchTimetable net w)
  = match ApiResponse.data (AxiosResponse.data r) with
    | JsNull | JsUndefined => []
    | JsObject fields =>
        [SetTimetable (js_or (last_field "data" fields JsUndefined) (JsArray []))]
    | _ => [SetTimetable (JsArray [])]
    end.
Proof.
  intros Hnet.
  unfold FacultyDashboard.fetchTimetable, catching, await, emit, raise,
    mbind, handler_bind.
  pose proof (call_run GetTimetableEntries net w eq_refl) as Hrun.
  cbn [call] in Hrun. rewrite Hrun, Hnet. cbn [normalized]. cbn beta iota.
  by destruct (ApiResponse.data (AxiosResponse.data r)).
Qed.

(** Adding a timetable entry: any 2xx answer, whatever its status, is
    announced as a success, followed by a reload and a reset of the form;
    any failure is announced as "Failed to add timetable entry", the
    error's own message being dropped, and the form is kept. *)
Theorem handleAddTimetable_spec newEntry net w :
  FacultyDashboard.handleAddTimetable newEntry net w
  = (Fulfilled tt, w, [wire (EnterTimetable newEntry) w],
     match net (wire (EnterTimetable newEntry) w) with
     | Fulfilled _ =>
         [Alert "Success" "Timetable entry added successfully"; FetchAgain; ResetForm]
     | Rejected _ => [Alert "Error" "Failed to add timetable entry"]
     end).
Proof.
  unfold FacultyDashboard.handleAddTimetable, catching, await, emit,
    mbind, handler_bind.
  pose proof (call_run (EnterTimetable newEntry) net w eq_refl) as Hrun.
  cbn [call] in Hrun. rewrite Hrun.
  by destruct (net _) as [r|e0].
Qed.

(** ** Examples on the dashboards *)

Lemma overviewLoader_reads_analytics_witness :
  settled (StudentDashboard.overviewLoader (answering analytics_envelope) logged_in)
  = Fulfilled
      (StudentDashboard.dashboardData
         (js_or (js_prop "overallAttendance" (ApiResponse.data analytics_envelope))
            (JsNumber 0))
         (js_or (js_prop "upcomingClasses" (ApiResponse.data analytics_envelope))
            (JsNumber 0))
         (js_or (js_prop "pendingCorrections" (ApiResponse.data analytics_envelope))
            (JsNumber 0))).
Proof.
  apply (overviewLoader_reads_analytics (answering analytics_envelope) logged_in
           (AxiosResponse.mk 200 analytics_envelope)
           (AxiosResponse.mk 200 analytics_envelope)); reflexivity.
Defined.

Lemma handleMarkAttendance_checkin_reports_success_witness :
  StudentDashboard.handleMarkAttendance StudentDashboard.checkin
    (answering refusal_envelope) logged_in
  = (Fulfilled tt, logged_in,
     [wire (MarkAttendance
              (JsObject [("wifi_name", JsString "Campus_WiFi");
                         ("block_name", JsString "Main_Block")])) logged_in],
     [SetMarkingAttendance true;
      Alert "Success" "Attendance marked successfully";
      OnRefresh;
      SetMarkingAttendance false;
      SetAttendanceModalVisible false]).
Proof.
  apply (handleMarkAttendance_checkin_reports_success (answering refusal_envelope)
           logged_in (AxiosResponse.mk 200 refusal_envelope)).
  reflexivity.
Defined.

Lemma handleMarkAttendance_failure_witness :
  StudentDashboard.handleMarkAttendance StudentDashboard.checkout
    (failing networkError) logged_in
  = (Fulfilled tt, logged_in, [wire Checkout logged_in],
     [SetMarkingAttendance true;
      Alert "Error"
        (if includes (JsError.message (handleApiError networkError))
              StudentDashboard.TIME_FORMAT_SIGNATURE
         then "There was an issue with the time format. Please try again later."
         else JsError.message (handleApiError networkError));
      SetMarkingAttendance false;
      SetAttendanceModalVisible false]).
Proof.
  apply (handleMarkAttendance_failure StudentDashboard.checkout
           (failing networkError) logged_in networkError).
  reflexivity.
Defined.

Lemma handleUpdateProfile_spec_witness :
  StudentDashboard.handleUpdateProfile JsNull (answering refusal_envelope) logged_in
  = if bool_decide (ApiResponse.status refusal_envelope = "success") then
      (Fulfilled tt, logged_in,
       [wire (UpdateStudentProfile JsNull) logged_in;
        wire GetStudentProfile logged_in],
       Alert "Success" "Profile updated successfully"
       :: match answering refusal_envelope (wire GetStudentProfile logged_in) with
          | Fulfilled _ => [OnRefresh]
          | Rejected e0 => [Alert "Error" (JsError.message (handleApiError e0))]
          end)
    else (Fulfilled tt, logged_in, [wire (UpdateStudentProfile JsNull) logged_in], []).
Proof.
  apply (handleUpdateProfile_spec JsNull (answering refusal_envelope) logged_in
           (AxiosResponse.mk 200 refusal_envelope)).
  reflexivity.
Defined.

Lemma fetchTimetable_reads_nested_data_witness :
  events (FacultyDashboard.fetchTimetable (answering entries_envelope) logged_in)
  = match ApiResponse.data entries_envelope with
    | JsNull | JsUndefined => []
    | JsObject fields =>
        [SetTimetable (js_or (last_field "data" fields JsUndefined) (JsArray []))]
    | _ => [SetTimetable (JsArray [])]
    end.
Proof.
  apply (fetchTimetable_reads_nested_data (answering entries_envelope) logged_in
           (AxiosResponse.mk 200 entries_envelope)).
  reflexivity.
Defined.

(** The entries sent as [data] do not reach the faculty screen. *)
Example fetchTimetable_drops_plain_list :
  events (FacultyDashboard.fetchTimetable (answering entries_envelope) logged_in)
  = [SetTimetable (JsArray [])].
Proof. reflexivity. Qed.

(** A refused check-in, answered with status 200, is announced as marked. *)
Example refused_checkin_is_announced :
  events (StudentDashboard.handleMarkAttendance StudentDashboard.checkin
            (answering refusal_envelope) logged_in)
  = [SetMarkingAttendance true;
     Alert "Success" "Attendance marked successfully";
     OnRefresh;
     SetMarkingAttendance false;
     SetAttendanceModalVisible false].
Proof. reflexivity. Qed.
